(** * dogma-black/black: a shallow embedding of the agent glue code

    The repository wires a hosted LLM agent framework together.  Four source
    files carry logic of their own:

    - [AgentesBlack/adk_project/callback_logging.py]: two logging hooks;
    - [AgentesBlack/adk_project/llm_auditor/agent.py]: the critic/reviser
      pipeline declaration;
    - [AgentesBlack/adk_project/app_agent/agent.py]: environment validation,
      event printing and the command-line entry point;
    - [Central black/centralblack-backend/main.py]: the HTTP stub.

    Python values are modelled as follows.  A [str] is a [string], the
    text with every code point written as UTF-8 writes it, a lone
    surrogate included (which UTF-8 proper refuses: [Py.utf8_encodable]).
    Equality, concatenation, emptiness and the substring test read the
    same on both.  Case conversion does not, so
    [str.upper] and [str.lower] are an interface ([Py.StrCase]), fixed on
    ASCII text only, that the development is generic in; [Py.ascii_case]
    is the implementation used to evaluate examples.  [Optional[T]] is [option T].  [os.environ] is a [gmap string string].
    Output ([print], [logging.info], framework calls) is recorded as a trace
    of [Effect]s, and a raised exception ends the computation: a Python
    function becomes a value of [Prog A], a writer-and-error monad. *)

From Stdlib Require Import String Ascii List ZArith Lia Bool.
From stdpp Require Import base option list strings gmap.

Set Default Proof Using "Type".

(* ===================================================================== *)
(** ** Python values, strings and truthiness *)
(* ===================================================================== *)

Module Py.

(** [str.lower] and [str.upper] on one character.  Only the ASCII letters
    have a case here; every other byte is left as it is. *)
Definition ascii_lower (c : ascii) : ascii :=
  let n := N_of_ascii c in
  if (65 <=? n)%N && (n <=? 90)%N then ascii_of_N (n + 32) else c.

Definition ascii_upper (c : ascii) : ascii :=
  let n := N_of_ascii c in
  if (97 <=? n)%N && (n <=? 122)%N then ascii_of_N (n - 32) else c.

Fixpoint str_map (f : ascii -> ascii) (s : string) : string :=
  match s with
  | EmptyString => EmptyString
  | String c r => String (f c) (str_map f r)
  end.

(** [s.isascii()] *)
Fixpoint str_isascii (s : string) : bool :=
  match s with
  | EmptyString => true
  | String c r => (N_of_ascii c <? 128)%N && str_isascii r
  end.

(** [s.upper()] and [s.lower()], as the interpreter provides them: on
    ASCII text they convert the letters and nothing else; on other text
    they follow the Unicode tables, which are not modelled. *)
Class StrCase := {
  str_upper : string -> string;
  str_lower : string -> string;
  str_upper_ascii s :
    str_isascii s = true -> str_upper s = str_map ascii_upper s;
  str_lower_ascii s :
    str_isascii s = true -> str_lower s = str_map ascii_lower s
}.

(** The conversion that leaves every byte outside ASCII as it is. *)
Definition ascii_case : StrCase := {|
  str_upper := str_map ascii_upper;
  str_lower := str_map ascii_lower;
  str_upper_ascii := fun _ _ => eq_refl;
  str_lower_ascii := fun _ _ => eq_refl
|}.

(** [sep.join(l)] *)
Definition str_join (sep : string) (l : list string) : string :=
  String.concat sep l.

(** [hay.startswith(needle)] *)
Fixpoint str_startswith (hay needle : string) {struct needle} : bool :=
  match needle with
  | EmptyString => true
  | String a needle' =>
      match hay with
      | EmptyString => false
      | String b hay' => Ascii.eqb a b && str_startswith hay' needle'
      end
  end.

(** [needle in hay] for two strings. *)
Fixpoint str_contains (needle hay : string) : bool :=
  str_startswith hay needle ||
  match hay with
  | EmptyString => false
  | String _ rest => str_contains needle rest
  end.

(** The two protocols the code relies on for every value it formats or
    tests: [str(v)] (also what an f-string inserts) and [bool(v)]. *)
Class PyObject (V : Type) := {
  py_str : V -> string;
  py_bool : V -> bool
}.

#[export] Instance str_object : PyObject string := {|
  py_str s := s;
  py_bool s := negb (String.eqb s "")
|}.

(** [None] prints as ["None"] and is falsy. *)
#[export] Instance optional_object `{PyObject V} : PyObject (option V) := {|
  py_str o := match o with Some v => py_str v | None => "None" end;
  py_bool o := match o with Some v => py_bool v | None => false end
|}.

(** A list is truthy when it is not empty.  (Its [str] is not used.) *)
Definition list_bool {A} (l : list A) : bool :=
  match l with [] => false | _ :: _ => true end.

(** The second byte of a surrogate code point (U+D800 to U+DFFF, written
    ED A0..BF 80..BF). *)
Definition surrogate_tail (s : string) : bool :=
  match s with
  | String d _ => (160 <=? N_of_ascii d)%N && (N_of_ascii d <=? 191)%N
  | EmptyString => false
  end.

(** [s.encode("utf-8")] succeeds: the text holds no surrogate. *)
Fixpoint utf8_encodable (s : string) : bool :=
  match s with
  | EmptyString => true
  | String c r =>
      negb ((N_of_ascii c =? 237)%N && surrogate_tail r) && utf8_encodable r
  end.

(** Exceptions the code raises or can meet.  The last three derive from
    [BaseException] only. *)
Inductive PyExc :=
| ValueError (msg : string)
| AttributeError (msg : string)
| RuntimeError (msg : string)
| HTTPException (status_code : nat) (detail : string)
| ValidationError (field : string)
| UnicodeEncodeError (object : string)
| KeyboardInterrupt
| SystemExit
| CancelledError.

(** [isinstance(e, Exception)]: what [except Exception] catches. *)
Definition is_exception (e : PyExc) : bool :=
  match e with
  | KeyboardInterrupt | SystemExit | CancelledError => false
  | _ => true
  end.

Definition nat_digit (n : nat) : string :=
  String (ascii_of_nat (48 + n)) EmptyString.

(** Decimal rendering of a three-digit status code. *)
Definition status_str (n : nat) : string :=
  nat_digit (n / 100) +:+ nat_digit ((n / 10) mod 10) +:+ nat_digit (n mod 10).

#[export] Instance exc_object : PyObject PyExc := {|
  py_str e :=
    match e with
    | ValueError m | AttributeError m | RuntimeError m => m
    | HTTPException c d => status_str c +:+ ": " +:+ d
    | ValidationError f => "validation error: " +:+ f
    | UnicodeEncodeError _ => "'utf-8' codec can't encode: surrogates not allowed"
    | KeyboardInterrupt | SystemExit | CancelledError => ""
    end;
  py_bool _ := true
|}.

End Py.
Export Py.

(* ===================================================================== *)
(** ** Effects and the program monad *)
(* ===================================================================== *)

Module Prog.

(** [google.genai.types]: the parts of a message, with the fields the code
    reads and the library has.  [V] is the type of the opaque Python values
    carried along (the arguments of a function call). *)
Section Genai.
Context {V : Type}.

Record FunctionCall := {
  fc_name : option string;
  fc_args : option V
}.

Record Part := {
  text : option string;
  function_call : option FunctionCall
}.

(** [parts] is [Optional[list[Part]]]; the code only ever tests it for
    truthiness before use, so [None] is represented by [[]]. *)
Record Content := {
  role : option string;
  parts : list Part
}.
End Genai.
Arguments FunctionCall : clear implicits.
Arguments Part : clear implicits.
Arguments Content : clear implicits.

(** What a run leaves behind, in order. *)
Inductive Effect {V : Type} :=
| Print (line : string)                       (* print(line) *)
| LogInfo (msg : string)                      (* logging.info(msg) *)
| RunAsync (user_id session_id : string) (new_message : Content V)
| CloseLogging.                               (* cloud_logging_client.close() *)
Arguments Effect : clear implicits.

Inductive outcome (A : Type) :=
| Return (a : A)
| Raise (e : PyExc).
Arguments Return {A} a.
Arguments Raise {A} e.

Definition Prog (V A : Type) : Type := list (Effect V) * outcome A.

Section Monad.
Context {V : Type}.

Definition ret {A} (a : A) : Prog V A := ([], Return a).

Definition bind {A B} (m : Prog V A) (k : A -> Prog V B) : Prog V B :=
  match m with
  | (t, Return a) => let '(t', r) := k a in (t ++ t', r)
  | (t, Raise e) => (t, Raise e)
  end.

Definition raise {A} (e : PyExc) : Prog V A := ([], Raise e).

Definition emit (e : Effect V) : Prog V unit := ([e], Return tt).

(** [try: body / except Exception as e: handler(e)].  An exception that
    does not derive from [Exception] passes through. *)
Definition try_except {A} (body : Prog V A) (handler : PyExc -> Prog V A)
  : Prog V A :=
  match body with
  | (t, Return a) => (t, Return a)
  | (t, Raise e) =>
      if is_exception e
      then let '(t', r) := handler e in (t ++ t', r)
      else (t, Raise e)
  end.

(** [for x in l: body(x)] *)
Fixpoint for_each {A} (l : list A) (body : A -> Prog V unit) : Prog V unit :=
  match l with
  | [] => ret tt
  | x :: rest => bind (body x) (fun _ => for_each rest body)
  end.

Definition trace {A} (m : Prog V A) : list (Effect V) := fst m.
Definition result {A} (m : Prog V A) : outcome A := snd m.
End Monad.

Notation "x <- m ;; k" := (bind m (fun x => k))
  (at level 100, m at next level, right associativity).
Notation "m ;;; k" := (bind m (fun _ => k))
  (at level 100, right associativity).

(** [print(line)] on a terminal that takes every line. *)
Definition print {V} (line : string) : Prog V unit := emit (Print line).
Definition logging_info {V} (msg : string) : Prog V unit := emit (LogInfo msg).

End Prog.
Export Prog.

(* ===================================================================== *)
(** ** callback_logging.py *)
(* ===================================================================== *)

Module CallbackLogging.
Section Hooks.
Context {V : Type} `{PyObject V}.

Record CallbackContext := { agent_name : string }.
Record LlmRequest := { contents : list (Content V) }.
Record LlmResponse := { content : option (Content V) }.

(** [log_query_to_model]: the hook run before each model call. *)
Definition log_query_to_model
    (callback_context : CallbackContext) (llm_request : LlmRequest)
  : Prog V unit :=
  match last (contents llm_request) with
  | Some c =>
      if bool_decide (role c = Some "user") then
        (* Ensure the first part of the user's message has text. *)
        match parts c with
        | p :: _ =>
            if py_bool (text p) then
              let last_user_message := py_str (text p) in
              logging_info ("[query to " +:+ agent_name callback_context
                            +:+ "]: " +:+ last_user_message)
            else ret tt
        | [] => ret tt
        end
      else ret tt
  | None => ret tt
  end.

(** The body of the loop of [log_model_response], for one part. *)
Definition log_part (callback_context : CallbackContext) (part : Part V)
  : Prog V unit :=
  if py_bool (text part) then
    logging_info ("[response from " +:+ agent_name callback_context
                  +:+ "]: " +:+ py_str (text part))
  else
    match function_call part with
    | Some fc =>
        let args_str := py_str (fc_args fc) in
        logging_info ("[function call from " +:+ agent_name callback_context
                      +:+ "]: " +:+ py_str (fc_name fc)
                      +:+ "(" +:+ args_str +:+ ")")
    | None => ret tt
    end.

(** [log_model_response]: the hook run after each model call. *)
Definition log_model_response
    (callback_context : CallbackContext) (llm_response : LlmResponse)
  : Prog V unit :=
  match content llm_response with
  | Some c =>
      if list_bool (parts c) then
        for_each (parts c) (log_part callback_context)
      else ret tt
  | None => ret tt
  end.
End Hooks.
Arguments LlmRequest : clear implicits.
Arguments LlmResponse : clear implicits.
End CallbackLogging.

(* ===================================================================== *)
(** ** llm_auditor/agent.py *)
(* ===================================================================== *)

Module LlmAuditor.

(** Agent configurations: a model-backed agent, or a sequence of
    sub-agents. *)
#[warnings="-register-all"]
Inductive Agent :=
| LlmAgent (name : string)
| SequentialAgent (name description : string) (sub_agents : list Agent).

Definition name_of (a : Agent) : string :=
  match a with
  | LlmAgent n => n
  | SequentialAgent n _ _ => n
  end.

(** Modelled from the spec: [llm_auditor/sub_agents/critic] and
    [llm_auditor/sub_agents/reviser] are not part of the sources at hand.
    Each is "a declarative configuration (model name + instruction text)
    handed to the framework; no custom logic", so only its identity
    matters here. *)
Definition critic_agent : Agent := LlmAgent "critic_agent".
Definition reviser_agent : Agent := LlmAgent "reviser_agent".

Definition llm_auditor : Agent :=
  SequentialAgent "llm_auditor"
    ("Use this tool to verify and correct a factual statement. "
     +:+ "Input should be a single statement or a question-answer pair to be fact-checked. "
     +:+ "The tool will evaluate the statement, use the web to verify its accuracy, "
     +:+ "and return a corrected version if necessary.")
    [critic_agent; reviser_agent].

Definition root_agent : Agent := llm_auditor.

(** One turn of the conversation: who spoke, and what. *)
Record Turn := { author : string; said : string }.

(** The executor of a sequential agent belongs to the framework.
    [respond n h] is what the hosted model answers for agent [n] on the
    conversation [h]. *)
Section Executor.
Variable respond : string -> list Turn -> string.

Record PipelineState := {
  pending : list Agent;      (* stages still to run, next one first *)
  session : list Turn        (* the conversation so far *)
}.

(** Modelled from the spec: the framework's execution of an agent, which
    is not code of this repository.  A stage consumes the conversation so
    far and appends what it produces ("history is append-only for the
    duration of a run"); a sequential agent "runs critic then reviser in
    fixed order, passing accumulated conversation state between them". *)
Fixpoint run_agent (a : Agent) (h : list Turn) : list Turn :=
  match a with
  | LlmAgent n => h ++ [{| author := n; said := respond n h |}]
  | SequentialAgent _ _ subs =>
      (fix run_all (l : list Agent) (h : list Turn) : list Turn :=
         match l with
         | [] => h
         | s :: rest => run_all rest (run_agent s h)
         end) subs h
  end.

Definition stages (a : Agent) : list Agent :=
  match a with
  | LlmAgent _ => [a]
  | SequentialAgent _ _ subs => subs
  end.

Definition start (a : Agent) (h : list Turn) : PipelineState :=
  {| pending := stages a; session := h |}.

(** Modelled from the spec: the state machine of section 4.3.  One
    transition invokes the next stage to completion and "transitions
    unconditionally" to the one after it; "no branching, no retry, no
    cycle".  [None] when no stage is left: the state is terminal. *)
Definition step (s : PipelineState) : option (Agent * PipelineState) :=
  match pending s with
  | [] => None
  | a :: rest =>
      Some (a, {| pending := rest; session := run_agent a (session s) |})
  end.

(** A whole run: [step] repeated until the state is terminal.  The
    result is the list of stages invoked, in order, and the final
    conversation. *)
Fixpoint run_stages (l : list Agent) (h : list Turn)
  : list string * list Turn :=
  match l with
  | [] => ([], h)
  | a :: rest =>
      let '(names, h') := run_stages rest (run_agent a h) in
      (name_of a :: names, h')
  end.

Definition run (s : PipelineState) : list string * list Turn :=
  run_stages (pending s) (session s).
End Executor.

End LlmAuditor.

(* ===================================================================== *)
(** ** app_agent/agent.py *)
(* ===================================================================== *)

Module AppAgent.

(** [os.getenv(name)] and [os.getenv(name, default)], read after
    [load_dotenv()] has filled the environment. *)
Definition getenv (env : gmap string string) (name : string) : option string :=
  env !! name.

Definition getenv_default (env : gmap string string) (name dflt : string)
  : string :=
  default dflt (env !! name).

Definition google_genai_use_vertexai (env : gmap string string) : string :=
  getenv_default env "GOOGLE_GENAI_USE_VERTEXAI" "1".

Definition model_name (env : gmap string string) : option string :=
  getenv env "MODEL".

(** [google_genai_use_vertexai.lower() in ("true", "1", "yes")] *)
Definition use_vertexai `{StrCase} (env : gmap string string) : bool :=
  bool_decide (str_lower (google_genai_use_vertexai env) ∈ ["true"; "1"; "yes"]).

(** The list [missing_vars] as it stands when line 35 is reached. *)
Definition missing_vars `{StrCase} (env : gmap string string) : list string :=
  let missing_vars := [] in
  let missing_vars :=
    if negb (py_bool (model_name env))
    then missing_vars ++ ["MODEL"] else missing_vars in
  if use_vertexai env then
    let missing_vars :=
      if negb (py_bool (getenv env "GOOGLE_CLOUD_PROJECT"))
      then missing_vars ++ ["GOOGLE_CLOUD_PROJECT"] else missing_vars in
    if negb (py_bool (getenv env "GOOGLE_CLOUD_LOCATION"))
    then missing_vars ++ ["GOOGLE_CLOUD_LOCATION"] else missing_vars
  else missing_vars.

Definition missing_message (missing : list string) : string :=
  "Missing required environment variables: " +:+ str_join ", " missing
  +:+ ". " +:+
  "Please export them or add them to a .env file before running the script.".

(** The validation run at import time (lines 25 to 39). *)
Definition validate_environment `{StrCase} (env : gmap string string)
  : outcome unit :=
  let missing := missing_vars env in
  if list_bool missing
  then Raise (ValueError (missing_message missing))
  else Return tt.

Section Run.
Context {V : Type} `{PyObject V}.

Record Session := { id : string }.
Record Event := { author : string; content : option (Content V) }.

(** What the framework provides behind [InMemoryRunner]: sessions, and
    the stream of events a message gives rise to. *)
Record InMemoryRunner := {
  create_session : string -> string -> Session;
  run_async : string -> string -> Content V -> list Event
}.

(** [types.Part.from_text(text=...)] *)
Definition from_text (t : string) : Part V :=
  {| text := Some t; function_call := None |}.

(** The inner loop of [run_prompt], for one part of an event.  The [elif]
    of line 62 reads [part.tool_code]; the library's [Part] has no such
    attribute, so reading it raises, and what follows it on that line is
    never evaluated. *)
Definition print_part (event : Event) (part : Part V) : Prog V unit :=
  if py_bool (text part) then
    print ("** " +:+ author event +:+ ": " +:+ py_str (text part))
  else
    raise (AttributeError "'Part' object has no attribute 'tool_code'").

Definition print_event (event : Event) : Prog V unit :=
  match content event with
  | None => raise (AttributeError "'NoneType' object has no attribute 'parts'")
  | Some c =>
      if negb (list_bool (parts c)) then ret tt
      else for_each (parts c) (print_part event)
  end.

Definition run_prompt (runner : InMemoryRunner) (session : Session)
    (user_id new_message : string) : Prog V unit :=
  let content := {| role := Some "user"; parts := [from_text new_message] |} in
  print ("** user: " +:+ new_message) ;;;
  emit (RunAsync user_id (id session) content) ;;;
  for_each (run_async runner user_id (id session) content) print_event.

Definition usage : string :=
  "Usage: python3 app_agent/agent.py <your question here>".
Definition default_query : string := "What is the capital of France?".

(** [main], with [sys.argv] as its input.  [runner] stands for the
    [InMemoryRunner] built around the [fact_checking_assistant] agent. *)
Definition main (runner : InMemoryRunner) (argv : list string)
  : Prog V unit :=
  let app_name := "my_agent_app" in
  let user_id_1 := "user1" in
  let my_session := create_session runner app_name user_id_1 in
  query <- (if (1 <? length argv)%nat
            then ret (str_join " " (drop 1 argv))
            else print usage ;;; ret default_query) ;;
  run_prompt runner my_session user_id_1 query ;;;
  emit CloseLogging.
End Run.
Arguments Event : clear implicits.
Arguments InMemoryRunner : clear implicits.

End AppAgent.

(* ===================================================================== *)
(** ** centralblack-backend/main.py *)
(* ===================================================================== *)

Module Backend.

Record Message := {
  msg_role : string;
  msg_content : string;
  msg_source : option string
}.

Record OrchestrateRequest := {
  prompt : string;
  history : list Message
}.

Record OrchestrateResponse := {
  reply : string;
  source : string
}.

(** The handler prints and raises; it calls no agent. *)
Abbreviation Handler := (Prog Empty_set).

(** [print(line)] in the service.  The line holds text taken from the
    request body, in which a JSON escape can put any code point; the
    standard output encodes as UTF-8 and refuses a surrogate. *)
Definition print_utf8 (line : string) : Handler unit :=
  if utf8_encodable line then print line
  else raise (UnicodeEncodeError line).

(** A Python value handed to a field of a model. *)
Inductive PyValue :=
| PyNone
| PyStr (s : string)
| PyInt (n : Z).

(** The validation of a field declared [str]. *)
Definition str_field (name : string) (v : PyValue) : Handler string :=
  match v with
  | PyStr s => ret s
  | _ => raise (ValidationError name)
  end.

(** [OrchestrateResponse(reply=..., source=...)] (lines 19 to 21). *)
Definition new_OrchestrateResponse (reply_arg source_arg : PyValue)
  : Handler OrchestrateResponse :=
  r <- str_field "reply" reply_arg ;;
  s <- str_field "source" source_arg ;;
  ret {| reply := r; source := s |}.

(** The [try] block of [orchestrate] (lines 41 to 45). *)
Definition simulate `{StrCase} (request : OrchestrateRequest)
  : Handler OrchestrateResponse :=
  let simulated_reply :=
    "El orquestador ha procesado tu prompt: '"
    +:+ str_upper (prompt request) +:+ "'" in
  let source_agent := "app_agent (Simulado)" in
  new_OrchestrateResponse (PyStr simulated_reply) (PyStr source_agent).

(** [orchestrate] (lines 28 to 49): the [print] of line 33, which stands
    before the [try], then the [try] block and its [except Exception]
    clause. *)
Definition orchestrate `{StrCase} (request : OrchestrateRequest)
  : Handler OrchestrateResponse :=
  print_utf8 ("Prompt recibido: " +:+ prompt request) ;;;
  try_except (simulate request)
    (fun e =>
       print_utf8 ("Error en el orquestador: " +:+ py_str e) ;;;
       raise (HTTPException 500 "Error interno en el orquestador.")).

(** *** The route around the handler *)

(** A decoded JSON document (numbers are kept to the integers). *)
#[warnings="-register-all"]
Inductive Json :=
| JNull
| JBool (b : bool)
| JNumber (n : Z)
| JString (s : string)
| JArray (items : list Json)
| JObject (members : list (string * Json)).

(** The value of key [k] in an object; of two members with the same key
    the later one counts, as in a Python [dict] built by [json.loads]. *)
Fixpoint member (k : string) (members : list (string * Json)) : option Json :=
  match members with
  | [] => None
  | (k', v) :: rest =>
      match member k rest with
      | Some w => Some w
      | None => if String.eqb k k' then Some v else None
      end
  end.

Definition as_str (j : Json) : option string :=
  match j with JString s => Some s | _ => None end.

(** [Optional[str] = None]: the key may be missing or [null]. *)
Definition as_optional_str (o : option Json) : option (option string) :=
  match o with
  | None | Some JNull => Some None
  | Some (JString s) => Some (Some s)
  | Some _ => None
  end.

(** Modelled from the spec: the framework's validation of a JSON value
    against [class Message] (lines 10 to 13), "{role: string, content:
    string, optional source: string}". *)
Definition decode_message (j : Json) : option Message :=
  match j with
  | JObject ms =>
      r ← member "role" ms ≫= as_str;
      c ← member "content" ms ≫= as_str;
      s ← as_optional_str (member "source" ms);
      Some {| msg_role := r; msg_content := c; msg_source := s |}
  | _ => None
  end.

(** Modelled from the spec: the framework's validation of a JSON body
    against [class OrchestrateRequest] (lines 15 to 17), "request {prompt:
    string, history: [Message]}". *)
Definition decode_request (j : Json) : option OrchestrateRequest :=
  match j with
  | JObject ms =>
      p ← member "prompt" ms ≫= as_str;
      h ← match member "history" ms with
          | Some (JArray items) => mapM decode_message items
          | _ => None
          end;
      Some {| prompt := p; history := h |}
  | _ => None
  end.

(** The JSON form of a request, as a client sends it. *)
Definition message_json (m : Message) : Json :=
  JObject ([("role", JString (msg_role m)); ("content", JString (msg_content m))]
           ++ match msg_source m with
              | Some s => [("source", JString s)]
              | None => []
              end).

Definition request_json (r : OrchestrateRequest) : Json :=
  JObject [("prompt", JString (prompt r));
           ("history", JArray (map message_json (history r)))].

Inductive HttpBody :=
| ReplyJson (r : OrchestrateResponse)     (* the response model *)
| DetailJson (detail : string)            (* {"detail": ...} *)
| ValidationErrorJson                     (* the framework's error list *)
| ServerErrorText.                        (* an unhandled exception *)

Record HttpResponse := { status : nat; payload : HttpBody }.

(** Modelled from the spec: how the web framework, which is not code of
    this repository, answers for the handler.  A returned model is sent as
    "response {reply: string, source: string}" with status 200, if its
    text can be encoded as UTF-8; an [HTTPException] is sent with its own
    status and detail (the handler "returns a fixed 500 error to the
    caller"); anything else is an internal server error. *)
Definition respond (o : outcome OrchestrateResponse) : HttpResponse :=
  match o with
  | Return r =>
      if utf8_encodable (reply r) && utf8_encodable (source r)
      then {| status := 200; payload := ReplyJson r |}
      else {| status := 500; payload := ServerErrorText |}
  | Raise (HTTPException c d) => {| status := c; payload := DetailJson d |}
  | Raise _ => {| status := 500; payload := ServerErrorText |}
  end.

(** Modelled from the spec: the route
    [@app.post("/api/orchestrate", response_model=OrchestrateResponse)] as
    the web framework serves it.  A body that is not JSON ([None]) or does
    not validate "yields a client error, not a 500": it is answered 422 and
    the handler is not called.  Otherwise the handler runs on the decoded
    request. *)
Definition post_orchestrate `{StrCase} (body : option Json)
  : Handler HttpResponse :=
  match body ≫= decode_request with
  | None => ret {| status := 422; payload := ValidationErrorJson |}
  | Some request =>
      let '(t, o) := orchestrate request in (t, Return (respond o))
  end.

End Backend.

(* ===================================================================== *)
(** ** The vocabulary of the specification *)
(* ===================================================================== *)

Module Spec.
Import AppAgent CallbackLogging.

(** The variables the startup check requires: the model name always, the
    cloud project and location when the hosted-backend toggle is enabled. *)
Definition required_vars `{StrCase} (env : gmap string string) : list string :=
  "MODEL" ::
  (if use_vertexai env
   then ["GOOGLE_CLOUD_PROJECT"; "GOOGLE_CLOUD_LOCATION"] else []).

(** A variable is absent when the environment does not define it. *)
Definition absent (env : gmap string string) (v : string) : Prop :=
  env !! v = None.

(** A variable has no value when it is absent or defined as [""]. *)
Definition unset_or_empty (env : gmap string string) (v : string) : Prop :=
  env !! v = None ∨ env !! v = Some "".

#[export] Instance absent_dec env v : Decision (absent env v).
Proof. unfold absent. apply _. Defined.

#[export] Instance unset_or_empty_dec env v : Decision (unset_or_empty env v).
Proof. unfold unset_or_empty. apply _. Defined.

Section Messages.
Context {V : Type} `{PyObject V}.

(** The text of a message: the text of its parts, one after the other. *)
Definition message_text (c : Content V) : string :=
  String.concat "" (omap text (parts c)).

(** The text of the first part of a message ([""] when there is none). *)
Definition first_part_text (c : Content V) : string :=
  match parts c with
  | p :: _ => default "" (text p)
  | [] => ""
  end.

Definition response_parts (r : LlmResponse V) : list (Part V) :=
  match content r with
  | Some c => parts c
  | None => []
  end.

(** A text part carries a text; a function-call part carries a call. *)
Definition text_part (p : Part V) : Prop := is_Some (text p).
Definition function_call_part (p : Part V) : Prop :=
  is_Some (function_call p).

(** The finer classes: a part with a text that is not empty, and a part
    without such a text that carries a call. *)
Definition has_text (p : Part V) : Prop :=
  text p ≠ None ∧ text p ≠ Some "".
Definition call_only (p : Part V) : Prop :=
  ¬ has_text p ∧ is_Some (function_call p).

#[export] Instance text_part_dec p : Decision (text_part p).
Proof. unfold text_part. apply _. Defined.
#[export] Instance function_call_part_dec p : Decision (function_call_part p).
Proof. unfold function_call_part. apply _. Defined.
#[export] Instance has_text_dec p : Decision (has_text p).
Proof. unfold has_text. apply _. Defined.
#[export] Instance call_only_dec p : Decision (call_only p).
Proof. unfold call_only. apply _. Defined.

(** How many elements of [l] satisfy [P]. *)
Definition count {A} (P : A → Prop) `{∀ x, Decision (P x)} (l : list A) : nat :=
  length (filter P l).

Definition query_line (agent t : string) : string :=
  "[query to " +:+ agent +:+ "]: " +:+ t.
Definition response_line (agent t : string) : string :=
  "[response from " +:+ agent +:+ "]: " +:+ t.
Definition call_line (agent name args : string) : string :=
  "[function call from " +:+ agent +:+ "]: " +:+ name +:+ "(" +:+ args +:+ ")".

(** The lines one iteration of the loop of [log_model_response]
    writes. *)
Definition part_lines (agent : string) (p : Part V) : list string :=
  if py_bool (text p) then [response_line agent (py_str (text p))]
  else match function_call p with
       | Some fc =>
           [call_line agent (py_str (fc_name fc)) (py_str (fc_args fc))]
       | None => []
       end.

(** What is expected in the log for one part of a response. *)
Inductive logged (agent : string) : Part V → list string → Prop :=
| logged_text p t :
    text p = Some t → t ≠ "" →
    logged agent p [response_line agent t]
| logged_call p fc :
    call_only p → function_call p = Some fc →
    logged agent p [call_line agent (py_str (fc_name fc)) (py_str (fc_args fc))]
| logged_nothing p :
    ¬ has_text p → function_call p = None →
    logged agent p [].
End Messages.

Section Effects.
Context {V : Type}.

(** A log line that mentions [agent]. *)
Definition log_mentions (agent : string) (e : Effect V) : Prop :=
  ∃ m, e = LogInfo m ∧ str_contains agent m = true.

(** A printed line that starts with the marker of [run_prompt]. *)
Definition marked_print (e : Effect V) : Prop :=
  ∃ line, e = Print line ∧ str_startswith line "** " = true.

(** The user message [run_prompt] builds for a query. *)
Definition user_content (q : string) : Content V :=
  {| role := Some "user"; parts := [from_text q] |}.

(** An event the loop of [run_prompt] prints in full: it has a content,
    and every part of it has a text that is not empty. *)
Definition printable `{PyObject V} (event : Event V) : Prop :=
  ∃ c, AppAgent.content event = Some c ∧ Forall has_text (parts c).

(** An event the loop of [run_prompt] passes over: it has a content, and
    the content has no part. *)
Definition silent (event : Event V) : bool :=
  match AppAgent.content event with
  | Some c => negb (list_bool (parts c))
  | None => false
  end.
End Effects.

(** A variable has a value when it is defined and not empty. *)
Definition has_value (env : gmap string string) (v : string) : Prop :=
  ∃ x, env !! v = Some x ∧ x ≠ "".

(** The four variables the startup code reads. *)
Definition startup_vars : list string :=
  ["MODEL"; "GOOGLE_GENAI_USE_VERTEXAI";
   "GOOGLE_CLOUD_PROJECT"; "GOOGLE_CLOUD_LOCATION"].

End Spec.

(* ===================================================================== *)
(** ** Sample inputs *)
(* ===================================================================== *)

Module Samples.
Import AppAgent CallbackLogging Backend.

(** An environment in which MODEL is defined, but empty, and the toggle
    is off. *)
Definition env_empty_model : gmap string string :=
  <["MODEL" := ""]> (<["GOOGLE_GENAI_USE_VERTEXAI" := "0"]> ∅).


Definition sample_context : CallbackContext :=
  {| agent_name := "fact_checking_assistant" |}.

(** A part that carries neither text nor a call (an image, say). *)
Definition other_part : Part string :=
  {| text := None; function_call := None |}.

(** A user message made of an image followed by a text. *)
Definition mixed_message : Content string :=
  {| role := Some "user"; parts := [other_part; from_text "hi"] |}.

Definition mixed_request : LlmRequest string :=
  {| contents := [mixed_message] |}.

(** A user message made of one text. *)
Definition hello_message : Content string :=
  {| role := Some "user"; parts := [from_text "hello"] |}.

Definition hello_request : LlmRequest string :=
  {| contents := [hello_message] |}.

(** A response whose only part is a text part with the empty text. *)
Definition empty_text_part : Part string :=
  {| text := Some ""; function_call := None |}.

Definition empty_text_response : LlmResponse string :=
  {| content := Some {| role := Some "model"; parts := [empty_text_part] |} |}.

Definition hello_body : OrchestrateRequest :=
  {| prompt := "hello"; history := [] |}.

(** Bodies that are JSON but do not fit the schema: a number for the
    prompt, no history, and a message without content. *)
Definition numeric_prompt : Json :=
  JObject [("prompt", JNumber 7); ("history", JArray [])].
Definition no_history : Json :=
  JObject [("prompt", JString "hello")].
Definition bad_message : Json :=
  JObject [("prompt", JString "hello");
           ("history", JArray [JObject [("role", JString "user")]])].

(** A runner whose model answers every message with one text. *)
Definition echo_runner : InMemoryRunner string :=
  {| create_session := λ _ _, {| id := "s1" |};
     run_async := λ _ _ _,
       [{| AppAgent.author := "fact_checking_assistant";
           AppAgent.content := Some {| role := Some "model";
                              parts := [from_text "Paris."] |} |}] |}.

(** A complete environment for the hosted backend, and one for the other
    backend that sets the cloud variables to nothing. *)
Definition env_vertexai : gmap string string :=
  <["MODEL" := "gemini-2.0-flash"]>
  (<["GOOGLE_CLOUD_PROJECT" := "my-project"]>
  (<["GOOGLE_CLOUD_LOCATION" := "us-central1"]> ∅)).

Definition env_api_key : gmap string string :=
  <["MODEL" := "gemini-2.0-flash"]>
  (<["GOOGLE_GENAI_USE_VERTEXAI" := "false"]>
  (<["GOOGLE_CLOUD_PROJECT" := ""]> ∅)).

(** A part that carries a text and a call at once. *)
Definition search_call : FunctionCall string :=
  {| fc_name := Some "llm_auditor"; fc_args := Some "{'request': 'x'}" |}.

Definition text_and_call : Part string :=
  {| text := Some "Checking."; function_call := Some search_call |}.

(** Events: one with a text, one without content, one whose content has
    no part. *)
Definition answer_event : Event string :=
  {| AppAgent.author := "fact_checking_assistant";
     AppAgent.content := Some {| role := Some "model";
                                 parts := [from_text "Paris."] |} |}.

Definition bare_event : Event string :=
  {| AppAgent.author := "llm_auditor"; AppAgent.content := None |}.

Definition empty_event : Event string :=
  {| AppAgent.author := "llm_auditor";
     AppAgent.content := Some {| role := Some "model"; parts := [] |} |}.

Definition runner_of (events : list (Event string)) : InMemoryRunner string :=
  {| create_session := λ _ _, {| id := "s1" |};
     run_async := λ _ _ _, events |}.

(** An event that carries a function call and no text. *)
Definition call_part : Part string :=
  {| text := None; function_call := Some search_call |}.

Definition call_event : Event string :=
  {| AppAgent.author := "fact_checking_assistant";
     AppAgent.content := Some {| role := Some "model"; parts := [call_part] |} |}.

(** The code point U+D800 on its own, as a JSON escape can spell it, and
    a request whose prompt it is. *)
Definition lone_surrogate : string :=
  String "237" (String "160" (String "128" "")).

Definition surrogate_request : OrchestrateRequest :=
  {| prompt := lone_surrogate; history := [] |}.

End Samples.

(* ===================================================================== *)
(** ** Strings *)
(* ===================================================================== *)

Section StringFacts.

Lemma append_cons (a : ascii) (s t : string) :
  String a s +:+ t = String a (s +:+ t).
Proof. reflexivity. Qed.

Lemma append_nil_l (s : string) : "" +:+ s = s.
Proof. reflexivity. Qed.

Lemma startswith_append (t b : string) : str_startswith (t +:+ b) t = true.
Proof.
  induction t as [|a t IH]; [reflexivity|].
  rewrite append_cons. cbn. rewrite Ascii.eqb_refl. exact IH.
Qed.

Lemma str_contains_here (t b : string) : str_contains t (t +:+ b) = true.
Proof.
  destruct (t +:+ b) eqn:E; cbn; rewrite <- E, startswith_append; reflexivity.
Qed.

(** A string contains each of its infixes. *)
Lemma str_contains_infix (a t b : string) :
  str_contains t (a +:+ t +:+ b) = true.
Proof.
  induction a as [|c a IH].
  - rewrite append_nil_l. apply str_contains_here.
  - rewrite append_cons. cbn. rewrite IH. apply orb_true_r.
Qed.

Lemma str_contains_prepend (a t s : string) :
  str_contains t s = true → str_contains t (a +:+ s) = true.
Proof.
  intros Hs. induction a as [|c a IH]; [exact Hs|].
  rewrite append_cons. cbn. rewrite IH. apply orb_true_r.
Qed.

Lemma str_contains_refl (t : string) : str_contains t t = true.
Proof.
  assert (str_startswith t t = true) as E.
  { induction t as [|c t IH]; [reflexivity|].
    cbn. rewrite Ascii.eqb_refl. exact IH. }
  destruct t; [reflexivity|]. cbn [str_contains]. rewrite E. reflexivity.
Qed.

Lemma eqb_empty (s : string) : String.eqb s "" = true ↔ s = "".
Proof. apply String.eqb_eq. Qed.

(** Truthiness of an optional string: defined, and not [""]. *)
Lemma py_bool_text (o : option string) :
  py_bool o = true ↔ ∃ t, o = Some t ∧ t ≠ "".
Proof.
  destruct o as [t|]; cbn.
  - rewrite negb_true_iff. split.
    + intros E. exists t. split; [reflexivity|].
      intros ->. discriminate.
    + intros (t' & [= <-] & Hne). destruct t; [congruence | reflexivity].
  - split; [discriminate | intros (t & [=] & _)].
Qed.

Lemma py_bool_text_false (o : option string) :
  py_bool o = false ↔ o = None ∨ o = Some "".
Proof.
  destruct o as [t|]; cbn.
  - rewrite negb_false_iff, eqb_empty. split.
    + intros ->. right. reflexivity.
    + intros [[=] | [= ->]]. reflexivity.
  - split; [intros _; left; reflexivity | reflexivity].
Qed.

End StringFacts.

(* ===================================================================== *)
(** ** Startup validation (app_agent/agent.py, lines 19 to 39) *)
(* ===================================================================== *)

Section Startup.
Import AppAgent Spec.
Context `{StrCase}.

Implicit Type env : gmap string string.

Lemma lookup_falsy env (v : string) :
  negb (py_bool (env !! v)) = bool_decide (unset_or_empty env v).
Proof.
  unfold unset_or_empty. case_bool_decide as D.
  - apply negb_true_iff, py_bool_text_false, D.
  - apply negb_false_iff. destruct (py_bool (env !! v)) eqn:E; [reflexivity|].
    apply py_bool_text_false in E. contradiction.
Qed.

(** The list the code builds is the list of required variables, in the
    order of their declaration, with those that have a value removed. *)
Lemma missing_vars_filter env :
  missing_vars env = filter (unset_or_empty env) (required_vars env).
Proof.
  unfold missing_vars, required_vars, model_name, getenv.
  rewrite !lookup_falsy.
  destruct (use_vertexai env); rewrite ?filter_cons, ?filter_nil;
    repeat case_bool_decide; repeat case_decide;
    try reflexivity; contradiction.
Qed.

Lemma validate_environment_cases env :
  validate_environment env =
  match missing_vars env with
  | [] => Return tt
  | _ :: _ => Raise (ValueError (missing_message (missing_vars env)))
  end.
Proof.
  unfold validate_environment. destruct (missing_vars env); reflexivity.
Qed.

(** The message names a required variable exactly when the list holds it. *)
Lemma missing_message_names env :
  Forall (λ v, str_contains v (missing_message (missing_vars env))
               = bool_decide (v ∈ missing_vars env))
         ["MODEL"; "GOOGLE_CLOUD_PROJECT"; "GOOGLE_CLOUD_LOCATION"].
Proof.
  unfold missing_vars.
  destruct (negb (py_bool (model_name env))), (use_vertexai env),
    (negb (py_bool (getenv env "GOOGLE_CLOUD_PROJECT"))),
    (negb (py_bool (getenv env "GOOGLE_CLOUD_LOCATION")));
    repeat constructor.
Qed.


Lemma use_vertexai_set env (value : string) :
  env !! "GOOGLE_GENAI_USE_VERTEXAI" = Some value →
  use_vertexai env = bool_decide (str_lower value ∈ ["true"; "1"; "yes"]).
Proof.
  intros E. unfold use_vertexai, google_genai_use_vertexai, getenv_default.
  rewrite E. reflexivity.
Qed.

(** C1, amended: for every environment, the startup check raises one
    [ValueError] whose message lists exactly the required variables that
    are unset or set to the empty string (MODEL always required; the cloud
    project and location required only when the hosted-backend toggle is
    enabled), each once and no other, and it raises nothing when there is
    none. *)
Theorem validate_environment_exact env :
  let missing := filter (unset_or_empty env) (required_vars env) in
  missing_vars env = missing
  ∧ NoDup missing
  ∧ validate_environment env =
    match missing with
    | [] => Return tt
    | _ :: _ => Raise (ValueError (missing_message missing))
    end
  ∧ missing_message missing =
    "Missing required environment variables: " +:+ str_join ", " missing
    +:+ ". Please export them or add them to a .env file before running the script."
  ∧ Forall (λ v, str_contains v (missing_message missing)
                 = bool_decide (v ∈ missing))
           ["MODEL"; "GOOGLE_CLOUD_PROJECT"; "GOOGLE_CLOUD_LOCATION"].
Proof.
  intros missing. subst missing. rewrite <- missing_vars_filter.
  split; [reflexivity|]. split.
  - rewrite missing_vars_filter. apply NoDup_filter.
    unfold required_vars. destruct (use_vertexai env).
    + compute_done.
    + apply NoDup_singleton.
  - split; [apply validate_environment_cases|].
    split; [reflexivity | apply missing_message_names].
Qed.


End Startup.

Section StartupSamples.
Import AppAgent Spec Samples.
#[local] Existing Instance ascii_case.

(** C1, as the claim words it, fails: in [env_empty_model] no required
    variable is absent, yet the check raises, and its message names
    MODEL. *)
Lemma validate_environment_empty_model :
  filter (absent env_empty_model) (required_vars env_empty_model) = []
  ∧ env_empty_model !! "MODEL" = Some ""
  ∧ validate_environment env_empty_model =
    Raise (ValueError
      ("Missing required environment variables: MODEL. " +:+
       "Please export them or add them to a .env file before running the script.")).
Proof. repeat split; vm_compute; reflexivity. Qed.


End StartupSamples.

(* ===================================================================== *)
(** ** Programs *)
(* ===================================================================== *)

Section ProgFacts.
Context {V : Type}.

(** A loop whose body never raises runs to its end, and leaves the
    traces of its iterations one after the other. *)
Lemma for_each_total {A} (l : list A) (body : A → Prog V unit)
    (out : A → list (Effect V)) :
  (∀ x, body x = (out x, Return tt)) →
  for_each l body = (concat (map out l), Return tt).
Proof.
  intros Hbody. induction l as [|x l IH]; [reflexivity|].
  cbn [for_each map concat]. rewrite Hbody, IH. reflexivity.
Qed.

Lemma bind_emit {B} (e : Effect V) (k : unit → Prog V B) :
  trace (bind (emit e) k) = e :: trace (k tt).
Proof. unfold bind, emit, trace. destruct (k tt). reflexivity. Qed.

Lemma bind_ret {A B} (a : A) (k : A → Prog V B) :
  trace (bind (ret a) k) = trace (k a).
Proof. unfold bind, ret, trace. destruct (k a). reflexivity. Qed.

Lemma bind_emit_ret {A B} (e : Effect V) (a : A) (k : A → Prog V B) :
  trace (bind (bind (emit e) (λ _, ret a)) k) = e :: trace (k a).
Proof. unfold bind, emit, ret, trace. cbn. destruct (k a). reflexivity. Qed.

(** The trace of a sequence starts with the trace of its first step. *)
Lemma bind_trace_prefix {A B} (m : Prog V A) (k : A → Prog V B) :
  ∃ rest, trace (bind m k) = trace m ++ rest.
Proof.
  destruct m as [t [a|e]]; cbn.
  - destruct (k a) as [t' r]. cbn. eauto.
  - exists []. rewrite app_nil_r. reflexivity.
Qed.

End ProgFacts.

(* ===================================================================== *)
(** ** The logging hooks (callback_logging.py) *)
(* ===================================================================== *)

Section Hooks.
Import CallbackLogging Spec.
Context {V : Type} `{PyObject V}.

Implicit Type p : Part V.
Implicit Type c : Content V.

Lemma has_text_truthy p : has_text p ↔ py_bool (text p) = true.
Proof.
  rewrite py_bool_text. unfold has_text. split.
  - intros [Hn He]. destruct (text p) as [t|]; [|contradiction].
    exists t. split; [reflexivity|]. intros ->. contradiction.
  - intros (t & -> & Hne). split; [discriminate|]. intros [= ->]. contradiction.
Qed.

Lemma first_part_text_truthy c :
  first_part_text c ≠ "" ↔
  ∃ p rest, parts c = p :: rest ∧ py_bool (text p) = true.
Proof.
  unfold first_part_text. destruct (parts c) as [|p rest].
  - split; [contradiction | intros (? & ? & [=] & _)].
  - split.
    + intros Hne. exists p, rest. split; [reflexivity|].
      apply py_bool_text. destruct (text p) as [t|]; [|contradiction].
      exists t. split; [reflexivity | exact Hne].
    + intros (p' & rest' & [= <- <-] & (t & -> & Hne)%py_bool_text). exact Hne.
Qed.

Lemma log_part_lines ctx p :
  log_part ctx p = (LogInfo <$> part_lines (agent_name ctx) p, Return tt).
Proof.
  unfold log_part, part_lines. destruct (py_bool (text p)); [reflexivity|].
  destruct (function_call p); reflexivity.
Qed.

Lemma part_lines_logged agent p : logged agent p (part_lines agent p).
Proof.
  unfold part_lines. destruct (py_bool (text p)) eqn:E.
  - apply py_bool_text in E as (t & E & Hne). rewrite E. cbn.
    apply logged_text; assumption.
  - assert (¬ has_text p) as Hno.
    { rewrite has_text_truthy, E. discriminate. }
    destruct (function_call p) as [fc|] eqn:F.
    + apply logged_call; [|exact F]. split; [exact Hno|]. rewrite F. eauto.
    + apply logged_nothing; assumption.
Qed.

Lemma part_lines_length agent p :
  length (part_lines agent p) =
  (if decide (has_text p) then 1 else 0) + (if decide (call_only p) then 1 else 0).
Proof.
  unfold part_lines. destruct (py_bool (text p)) eqn:E.
  - rewrite decide_True by (apply has_text_truthy, E).
    rewrite decide_False; [reflexivity|].
    intros [Hno _]. apply Hno, has_text_truthy, E.
  - assert (¬ has_text p) as Hno.
    { rewrite has_text_truthy, E. discriminate. }
    rewrite (decide_False _ _ Hno).
    destruct (function_call p) as [fc|] eqn:F.
    + rewrite decide_True; [reflexivity|].
      split; [exact Hno | rewrite F; eauto].
    + rewrite decide_False; [reflexivity|].
      intros [_ [? Hc]]. rewrite F in Hc. discriminate.
Qed.

Lemma lines_count agent (ps : list (Part V)) :
  length (concat (map (part_lines agent) ps)) =
  count has_text ps + count call_only ps.
Proof.
  unfold count. induction ps as [|p ps IH]; [reflexivity|].
  cbn [map concat]. rewrite length_app, IH, part_lines_length, !filter_cons.
  destruct (decide (has_text p)), (decide (call_only p)); cbn [length]; lia.
Qed.

Lemma log_model_response_lines ctx (resp : LlmResponse V) :
  log_model_response ctx resp =
  (LogInfo <$> concat (map (part_lines (agent_name ctx)) (response_parts resp)),
   Return tt).
Proof.
  unfold log_model_response, response_parts.
  destruct (content resp) as [c|]; [|reflexivity].
  destruct (parts c) as [|p ps] eqn:E; [reflexivity|]. cbn [list_bool].
  rewrite (for_each_total _ _ (λ p, LogInfo <$> part_lines (agent_name ctx) p))
    by apply log_part_lines.
  f_equal. clear E. generalize (p :: ps). intros l.
  induction l as [|q l IH]; [reflexivity|].
  cbn [map concat]. rewrite fmap_app, IH. reflexivity.
Qed.

Lemma query_line_contains (agent t : string) :
  str_contains t (query_line agent t) = true
  ∧ str_contains agent (query_line agent t) = true.
Proof.
  unfold query_line. split.
  - do 3 apply str_contains_prepend. apply str_contains_refl.
  - apply str_contains_infix.
Qed.

Lemma log_query_to_model_cases ctx (req : LlmRequest V) :
  log_query_to_model ctx req =
  match last (contents req) with
  | Some c =>
      if bool_decide (role c = Some "user" ∧ first_part_text c ≠ "")
      then ([LogInfo (query_line (agent_name ctx) (first_part_text c))], Return tt)
      else ([], Return tt)
  | None => ([], Return tt)
  end.
Proof.
  unfold log_query_to_model. destruct (last (contents req)) as [c|]; [|reflexivity].
  case_bool_decide as R.
  - case_bool_decide as D.
    + destruct D as [_ D]. pose proof D as D'.
      apply first_part_text_truthy in D' as (p & rest & E & T).
      unfold first_part_text. rewrite E, T.
      apply py_bool_text in T as (t & -> & _). reflexivity.
    + destruct (parts c) as [|p rest] eqn:E; [reflexivity|].
      destruct (py_bool (text p)) eqn:T; [|reflexivity].
      exfalso. apply D. split; [exact R|].
      apply first_part_text_truthy. eauto.
  - rewrite bool_decide_eq_false_2; [reflexivity|]. intros [R' _]. contradiction.
Qed.

(** C2, amended: for every request, [log_query_to_model] logs exactly one
    informational line, which contains the text of the first part of the
    last message and the agent name, if the last message has role "user"
    and its first part has a text that is not empty; it logs nothing if
    there is no message, if the last message's role is not "user", or if
    its first part is missing or has no text. *)
Theorem log_query_to_model_first_part ctx (req : LlmRequest V) :
  (∀ c, last (contents req) = Some c →
        role c = Some "user" → first_part_text c ≠ "" →
        log_query_to_model ctx req =
          ([LogInfo (query_line (agent_name ctx) (first_part_text c))], Return tt)
        ∧ str_contains (first_part_text c)
            (query_line (agent_name ctx) (first_part_text c)) = true
        ∧ str_contains (agent_name ctx)
            (query_line (agent_name ctx) (first_part_text c)) = true)
  ∧ (∀ c, last (contents req) = Some c →
          role c ≠ Some "user" ∨ first_part_text c = "" →
          log_query_to_model ctx req = ([], Return tt))
  ∧ (contents req = [] → log_query_to_model ctx req = ([], Return tt)).
Proof.
  rewrite log_query_to_model_cases. split; [|split].
  - intros c E R T. rewrite E.
    rewrite bool_decide_eq_true_2 by (split; assumption).
    split; [reflexivity | apply query_line_contains].
  - intros c E Hno. rewrite E. rewrite bool_decide_eq_false_2; [reflexivity|].
    intros [R T]. destruct Hno; contradiction.
  - intros E. rewrite E. reflexivity.
Qed.

(** C3, amended: for every response whose parts contain N parts with a
    text that is not empty and M parts without such a text but with a
    function call, [log_model_response] writes exactly N+M lines, in the
    order of the parts: a response line for each of the former, a
    "name(args)" line for each of the latter, and nothing for any other
    part. *)
Theorem log_model_response_count ctx (resp : LlmResponse V) :
  let ps := response_parts resp in
  ∃ lss : list (list string),
    Forall2 (logged (agent_name ctx)) ps lss
    ∧ log_model_response ctx resp = (LogInfo <$> concat lss, Return tt)
    ∧ length (trace (log_model_response ctx resp)) =
      count has_text ps + count call_only ps.
Proof.
  intros ps. exists (map (part_lines (agent_name ctx)) ps). split.
  - induction ps as [|p l IH]; constructor; [apply part_lines_logged | exact IH].
  - rewrite log_model_response_lines. fold ps. split; [reflexivity|].
    cbn [trace fst]. rewrite length_fmap. apply lines_count.
Qed.

End Hooks.

Section HookSamples.
Import CallbackLogging Spec Samples.

(** C2, as the claim words it, fails: the last message of
    [mixed_request] has role "user" and a text that is not empty, and
    nothing is logged, because that text is not in its first part. *)
Lemma log_query_to_model_mixed_message :
  last (contents mixed_request) = Some mixed_message
  ∧ role mixed_message = Some "user"
  ∧ message_text mixed_message = "hi"
  ∧ log_query_to_model sample_context mixed_request = ([], Return tt).
Proof. repeat split. Qed.

(** A request the first case of C2 applies to. *)
Lemma log_query_to_model_hello :
  log_query_to_model sample_context hello_request =
    ([LogInfo "[query to fact_checking_assistant]: hello"], Return tt)
  ∧ str_contains "hello" "[query to fact_checking_assistant]: hello" = true.
Proof.
  destruct (log_query_to_model_first_part sample_context hello_request)
    as [Hlog _].
  destruct (Hlog hello_message) as (E & C & _);
    [reflexivity | reflexivity | discriminate |].
  split; [exact E | exact C].
Defined.

(** C3, as the claim words it, fails: [empty_text_response] has one text
    part and no function-call part, and nothing is logged, because the
    text is empty. *)
Lemma log_model_response_empty_text :
  count text_part (response_parts empty_text_response) = 1
  ∧ count function_call_part (response_parts empty_text_response) = 0
  ∧ log_model_response sample_context empty_text_response = ([], Return tt).
Proof. repeat split. Qed.

End HookSamples.

(* ===================================================================== *)
(** ** The critic/reviser pipeline (llm_auditor/agent.py) *)
(* ===================================================================== *)

Section Pipeline.
Import LlmAuditor.

(** C4: whatever the model answers and whatever the conversation so far,
    a run of [llm_auditor] takes exactly two transitions.  The first
    invokes the critic on the input, the second invokes the reviser on
    the input followed by the critic's evaluation, and the state reached
    then is terminal: no stage is skipped, none runs twice, and the
    reviser never runs before the critic. *)
Theorem llm_auditor_critic_then_reviser
    (respond : string → list Turn → string) (h : list Turn) :
  let evaluation :=
    {| author := "critic_agent"; said := respond "critic_agent" h |} in
  let revision :=
    {| author := "reviser_agent";
       said := respond "reviser_agent" (h ++ [evaluation]) |} in
  let s1 := {| pending := [reviser_agent]; session := h ++ [evaluation] |} in
  let s2 := {| pending := []; session := h ++ [evaluation; revision] |} in
  step respond (start llm_auditor h) = Some (critic_agent, s1)
  ∧ step respond s1 = Some (reviser_agent, s2)
  ∧ step respond s2 = None
  ∧ run respond (start llm_auditor h) =
    (["critic_agent"; "reviser_agent"], h ++ [evaluation; revision])
  ∧ run_agent respond root_agent h = h ++ [evaluation; revision].
Proof.
  intros evaluation revision s1 s2. subst s1 s2.
  assert ((h ++ [evaluation]) ++ [revision] = h ++ [evaluation; revision]) as E.
  { rewrite <- app_assoc. reflexivity. }
  repeat split; cbn; fold evaluation; fold revision; rewrite ?E; reflexivity.
Qed.

End Pipeline.

(* ===================================================================== *)
(** ** The command line (app_agent/agent.py, [main]) *)
(* ===================================================================== *)

Section CommandLine.
Import AppAgent.
Context {V : Type} `{PyObject V}.

(** The message [run_prompt] hands to the runner for a query. *)
Lemma run_prompt_trace (runner : InMemoryRunner V) session user_id q :
  ∃ rest,
    trace (run_prompt runner session user_id q) =
    Print ("** user: " +:+ q)
    :: RunAsync user_id (id session)
         {| role := Some "user"; parts := [from_text q] |}
    :: rest.
Proof.
  unfold run_prompt, print. rewrite !bind_emit. eauto.
Qed.

(** C6: without a question on the command line, [main] prints the usage
    line and then runs the pipeline on the default question; with
    arguments, it runs the pipeline on the arguments joined by spaces.
    In both cases the query goes to the runner as one user message, for
    user "user1" in the session just created. *)
Theorem main_query (runner : InMemoryRunner V) (argv : list string) :
  let sid := id (create_session runner "my_agent_app" "user1") in
  let ask q :=
    [Print ("** user: " +:+ q);
     RunAsync "user1" sid {| role := Some "user"; parts := [from_text q] |}] in
  (length argv ≤ 1 →
     ∃ rest, trace (main runner argv) =
             Print usage :: ask "What is the capital of France?" ++ rest)
  ∧ (∀ prog arg args, argv = prog :: arg :: args →
       ∃ rest, trace (main runner argv) =
               ask (str_join " " (arg :: args)) ++ rest).
Proof.
  intros sid ask. split.
  - intros Hlen. unfold main.
    replace (1 <? length argv)%nat with false
      by (symmetry; apply Nat.ltb_ge; exact Hlen).
    destruct (run_prompt_trace runner
                (create_session runner "my_agent_app" "user1") "user1"
                default_query) as [r1 E1].
    destruct (bind_trace_prefix
                (run_prompt runner (create_session runner "my_agent_app" "user1")
                   "user1" default_query)
                (λ _, emit CloseLogging)) as [r2 E2].
    exists (r1 ++ r2). unfold print at 1.
    rewrite bind_emit_ret, E2, E1. reflexivity.
  - intros prog arg args ->. unfold main. cbn [length Nat.ltb Nat.leb drop].
    destruct (run_prompt_trace runner
                (create_session runner "my_agent_app" "user1") "user1"
                (str_join " " (arg :: args))) as [r1 E1].
    destruct (bind_trace_prefix
                (run_prompt runner (create_session runner "my_agent_app" "user1")
                   "user1" (str_join " " (arg :: args)))
                (λ _, emit CloseLogging)) as [r2 E2].
    exists (r1 ++ r2). rewrite bind_ret, E2, E1. reflexivity.
Qed.

End CommandLine.

Section CommandLineSamples.
Import AppAgent Samples.

(** The two cases of C6 on a runner that answers "Paris.". *)
Lemma main_query_default :
  (∃ rest, trace (main echo_runner ["app_agent/agent.py"]) =
           [Print "Usage: python3 app_agent/agent.py <your question here>";
            Print "** user: What is the capital of France?";
            RunAsync "user1" "s1"
              {| role := Some "user";
                 parts := [from_text "What is the capital of France?"] |}]
           ++ rest)
  ∧ (∃ rest, trace (main echo_runner ["app_agent/agent.py"; "Is"; "water"; "wet?"]) =
             [Print "** user: Is water wet?";
              RunAsync "user1" "s1"
                {| role := Some "user"; parts := [from_text "Is water wet?"] |}]
             ++ rest).
Proof.
  split.
  - destruct (main_query echo_runner ["app_agent/agent.py"]) as [Hnone _].
    apply Hnone. cbn. lia.
  - destruct (main_query echo_runner ["app_agent/agent.py"; "Is"; "water"; "wet?"])
      as [_ Hargs].
    apply (Hargs "app_agent/agent.py" "Is" ["water"; "wet?"]). reflexivity.
Defined.

End CommandLineSamples.

(* ===================================================================== *)
(** ** The HTTP stub (centralblack-backend/main.py) *)
(* ===================================================================== *)

Section Encoding.

Lemma ascii_not_lead (c : ascii) :
  (N_of_ascii c <? 128)%N = true → (N_of_ascii c =? 237)%N = false.
Proof.
  intros Hc. apply N.ltb_lt in Hc. apply N.eqb_neq. lia.
Qed.

Lemma ascii_not_tail (c : ascii) (s : string) :
  (N_of_ascii c <? 128)%N = true → surrogate_tail (String c s) = false.
Proof.
  intros Hc. apply N.ltb_lt in Hc. cbn [surrogate_tail].
  apply andb_false_iff. left. apply N.leb_gt. lia.
Qed.

(** ASCII text in front of a text does not change whether it encodes. *)
Lemma utf8_prepend_ascii (a s : string) :
  str_isascii a = true → utf8_encodable (a +:+ s) = utf8_encodable s.
Proof.
  induction a as [|c a IH]; [reflexivity|].
  cbn [str_isascii]. intros [Hc Ha]%andb_true_iff.
  rewrite append_cons. cbn [utf8_encodable].
  rewrite (ascii_not_lead c Hc), (IH Ha). reflexivity.
Qed.

Lemma surrogate_tail_append_ascii (s : string) (c : ascii) :
  (N_of_ascii c <? 128)%N = true →
  surrogate_tail (s +:+ String c "") = surrogate_tail s.
Proof.
  intros Hc. destruct s as [|d s]; [|reflexivity].
  apply (ascii_not_tail c "" Hc).
Qed.

(** Nor does one ASCII character behind it. *)
Lemma utf8_append_ascii (s : string) (c : ascii) :
  (N_of_ascii c <? 128)%N = true →
  utf8_encodable (s +:+ String c "") = utf8_encodable s.
Proof.
  intros Hc. induction s as [|d s IH].
  - rewrite append_nil_l. cbn [utf8_encodable surrogate_tail].
    rewrite andb_false_r. reflexivity.
  - rewrite append_cons. cbn [utf8_encodable].
    rewrite (surrogate_tail_append_ascii s c Hc), IH. reflexivity.
Qed.

Lemma utf8_ascii (s : string) : str_isascii s = true → utf8_encodable s = true.
Proof.
  induction s as [|c s IH]; [reflexivity|].
  cbn [str_isascii utf8_encodable]. intros [Hc Hs]%andb_true_iff.
  rewrite (ascii_not_lead c Hc), (IH Hs). reflexivity.
Qed.

End Encoding.

Section Orchestrate.
Import Backend.
Context `{StrCase}.

Lemma decode_message_json (m : Message) :
  decode_message (message_json m) = Some m.
Proof. destruct m as [r c [s|]]; reflexivity. Qed.

Lemma decode_history_json (h : list Message) :
  mapM decode_message (map message_json h) = Some h.
Proof.
  induction h as [|m h IH]; [reflexivity|].
  cbn [map mapM]. rewrite decode_message_json. cbn. rewrite IH. reflexivity.
Qed.

(** Every request survives the way through JSON. *)
Lemma decode_request_json (r : OrchestrateRequest) :
  decode_request (request_json r) = Some r.
Proof.
  destruct r as [p h]. unfold request_json, decode_request.
  cbn [prompt history member String.eqb Ascii.eqb Bool.eqb mbind option_bind as_str].
  cbn. rewrite decode_history_json. reflexivity.
Qed.

(** The answer of the stub for a prompt. *)
Lemma simulate_returns (request : OrchestrateRequest) :
  simulate request =
  ([], Return {| reply := "El orquestador ha procesado tu prompt: '"
                          +:+ str_upper (prompt request) +:+ "'";
                 source := "app_agent (Simulado)" |}).
Proof. reflexivity. Qed.

Lemma prompt_line_encodable (p : string) :
  utf8_encodable ("Prompt recibido: " +:+ p) = utf8_encodable p.
Proof. apply utf8_prepend_ascii. reflexivity. Qed.

(** When the prompt can be printed, the handler prints it and returns the
    answer of the stub. *)
Lemma orchestrate_returns (request : OrchestrateRequest) :
  utf8_encodable (prompt request) = true →
  orchestrate request =
  ([Print ("Prompt recibido: " +:+ prompt request)],
   Return {| reply := "El orquestador ha procesado tu prompt: '"
                      +:+ str_upper (prompt request) +:+ "'";
             source := "app_agent (Simulado)" |}).
Proof.
  intros Hp. unfold orchestrate, print_utf8.
  rewrite prompt_line_encodable, Hp, simulate_returns. reflexivity.
Qed.

(** When it cannot, the [print] of line 33 raises, before the [try] is
    entered, and nothing handles that. *)
Lemma orchestrate_escapes (request : OrchestrateRequest) :
  utf8_encodable (prompt request) = false →
  orchestrate request =
  ([], Raise (UnicodeEncodeError ("Prompt recibido: " +:+ prompt request))).
Proof.
  intros Hp. unfold orchestrate, print_utf8.
  rewrite prompt_line_encodable, Hp. reflexivity.
Qed.

Lemma reply_encodable (p : string) :
  utf8_encodable ("El orquestador ha procesado tu prompt: '" +:+ p +:+ "'")
  = utf8_encodable p.
Proof.
  rewrite utf8_prepend_ascii by reflexivity.
  apply utf8_append_ascii. reflexivity.
Qed.

(** C5, amended: for every prompt [p] that UTF-8 can encode (a text
    without lone surrogate, whose uppercase form is one too) and every
    history [h], the handler returns, and the POST of
    {prompt: p, history: h} is answered 200, with a reply that contains the
    uppercased prompt and with source "app_agent (Simulado)"; the answer is
    a function of the prompt alone; and "hello" uppercased is "HELLO". *)
Theorem post_orchestrate_echo (p : string) (h : list Message) :
  utf8_encodable p = true →
  utf8_encodable (str_upper p) = true →
  let answer :=
    {| reply := "El orquestador ha procesado tu prompt: '" +:+ str_upper p +:+ "'";
       source := "app_agent (Simulado)" |} in
  orchestrate {| prompt := p; history := h |} =
    ([Print ("Prompt recibido: " +:+ p)], Return answer)
  ∧ post_orchestrate (Some (request_json {| prompt := p; history := h |})) =
    ([Print ("Prompt recibido: " +:+ p)],
     Return {| status := 200; payload := ReplyJson answer |})
  ∧ str_contains (str_upper p) (reply answer) = true
  ∧ source answer = "app_agent (Simulado)"
  ∧ (∀ h', post_orchestrate (Some (request_json {| prompt := p; history := h' |}))
           = post_orchestrate (Some (request_json {| prompt := p; history := h |})))
  ∧ str_upper "hello" = "HELLO".
Proof.
  intros Hp Hup answer.
  assert (∀ h0, post_orchestrate (Some (request_json {| prompt := p; history := h0 |}))
                = ([Print ("Prompt recibido: " +:+ p)],
                   Return {| status := 200; payload := ReplyJson answer |})) as E.
  { intros h0. unfold post_orchestrate. cbn [mbind option_bind].
    rewrite decode_request_json, orchestrate_returns by exact Hp.
    cbn [respond prompt reply source]. rewrite reply_encodable, Hup. reflexivity. }
  split; [apply (orchestrate_returns {| prompt := p; history := h |}), Hp|].
  split; [apply E|]. split; [apply str_contains_infix|].
  split; [reflexivity|]. split; [|apply str_upper_ascii; reflexivity].
  intros h'. rewrite !E. reflexivity.
Qed.

(** C7: a POST whose body is not JSON, or is JSON that does not fit the
    request schema, is answered 422, a client error and not a 500, and
    the handler is not run. *)
Theorem post_orchestrate_invalid (body : option Json) :
  body = None ∨ (∃ j, body = Some j ∧ decode_request j = None) →
  ∃ r, post_orchestrate body = ([], Return r)
       ∧ status r = 422
       ∧ 400 ≤ status r < 500
       ∧ status r ≠ 500.
Proof.
  intros Hbad. exists {| status := 422; payload := ValidationErrorJson |}.
  split; [|cbn; lia].
  unfold post_orchestrate. destruct Hbad as [-> | (j & -> & E)].
  - reflexivity.
  - cbn [mbind option_bind]. rewrite E. reflexivity.
Qed.

(** C8, where the code departs from it: for every request whose prompt
    the standard output cannot encode, the [print] of line 33 raises
    outside the [try].  The handler does not catch the exception and does
    not print it; it reaches the caller as the framework's internal
    server error, not as the fixed
    [HTTPException(500, "Error interno en el orquestador.")]. *)
Theorem orchestrate_print_not_caught (request : OrchestrateRequest) :
  utf8_encodable (prompt request) = false →
  orchestrate request =
    ([], Raise (UnicodeEncodeError ("Prompt recibido: " +:+ prompt request)))
  ∧ result (orchestrate request)
    ≠ Raise (HTTPException 500 "Error interno en el orquestador.")
  ∧ respond (result (orchestrate request)) =
    {| status := 500; payload := ServerErrorText |}.
Proof.
  intros Hp. rewrite (orchestrate_escapes request Hp).
  split; [reflexivity|]. split; [discriminate | reflexivity].
Qed.

Lemma prompt_line_not_error (p : string) (e : PyExc) :
  Print (V:=Empty_set) ("Prompt recibido: " +:+ p)
  ≠ Print ("Error en el orquestador: " +:+ py_str e).
Proof. intros [=]. Qed.

(** C10, amended: for every request, the [try] block of the handler
    returns, so the [except] clause is never entered: the error line is
    never printed and the fixed [HTTPException(500)] is never raised.
    For every request whose prompt the standard output can encode, the
    handler returns the simulated response, and the caller receives it
    with a 200 (its text being encodable too). *)
Theorem orchestrate_never_raises (request : OrchestrateRequest) :
  let answer :=
    {| reply := "El orquestador ha procesado tu prompt: '"
                +:+ str_upper (prompt request) +:+ "'";
       source := "app_agent (Simulado)" |} in
  simulate request = ([], Return answer)
  ∧ (∀ e, Print ("Error en el orquestador: " +:+ py_str e)
          ∉ trace (orchestrate request))
  ∧ result (orchestrate request)
    ≠ Raise (HTTPException 500 "Error interno en el orquestador.")
  ∧ (utf8_encodable (prompt request) = true →
     orchestrate request =
       ([Print ("Prompt recibido: " +:+ prompt request)], Return answer)
     ∧ (utf8_encodable (str_upper (prompt request)) = true →
        respond (result (orchestrate request)) =
          {| status := 200; payload := ReplyJson answer |})).
Proof.
  intros answer. split; [apply simulate_returns|].
  destruct (utf8_encodable (prompt request)) eqn:Hp.
  - rewrite (orchestrate_returns request Hp). cbn [trace result fst snd].
    split; [|split; [discriminate|]].
    + intros e. rewrite not_elem_of_cons. split; [|apply not_elem_of_nil].
      intros E. symmetry in E. exact (prompt_line_not_error _ _ E).
    + intros _. split; [reflexivity|]. intros Hup.
      cbn [respond reply source]. rewrite reply_encodable, Hup. reflexivity.
  - rewrite (orchestrate_escapes request Hp). cbn [trace result fst snd].
    split; [|split; [discriminate | discriminate]].
    intros e. apply not_elem_of_nil.
Qed.

End Orchestrate.

Section OrchestrateSamples.
Import Backend Samples.
#[local] Existing Instance ascii_case.

(** C5, as the claim words it, fails: the body whose prompt is a lone
    surrogate fits the schema, and the POST is answered 500. *)
Lemma post_orchestrate_lone_surrogate :
  decode_request (request_json surrogate_request) = Some surrogate_request
  ∧ post_orchestrate (Some (request_json surrogate_request)) =
    ([], Return {| status := 500; payload := ServerErrorText |}).
Proof. split; reflexivity. Qed.

(** A prompt C5 applies to. *)
Lemma post_orchestrate_echo_hello :
  orchestrate hello_body =
    ([Print "Prompt recibido: hello"],
     Return {| reply := "El orquestador ha procesado tu prompt: 'HELLO'";
               source := "app_agent (Simulado)" |})
  ∧ post_orchestrate (Some (request_json hello_body)) =
    ([Print "Prompt recibido: hello"],
     Return {| status := 200;
               payload := ReplyJson
                 {| reply := "El orquestador ha procesado tu prompt: 'HELLO'";
                    source := "app_agent (Simulado)" |} |}).
Proof.
  destruct (@post_orchestrate_echo ascii_case "hello" [] eq_refl eq_refl) as (E1 & E2 & _).
  split; [exact E1 | exact E2].
Defined.

(** Bodies C7 applies to: no JSON at all, and three that miss the schema. *)
Lemma post_orchestrate_invalid_samples :
  (∃ r, post_orchestrate None = ([], Return r)
        ∧ status r = 422 ∧ 400 ≤ status r < 500 ∧ status r ≠ 500)
  ∧ (∃ r, post_orchestrate (Some numeric_prompt) = ([], Return r)
          ∧ status r = 422 ∧ 400 ≤ status r < 500 ∧ status r ≠ 500)
  ∧ (∃ r, post_orchestrate (Some no_history) = ([], Return r)
          ∧ status r = 422 ∧ 400 ≤ status r < 500 ∧ status r ≠ 500)
  ∧ (∃ r, post_orchestrate (Some bad_message) = ([], Return r)
          ∧ status r = 422 ∧ 400 ≤ status r < 500 ∧ status r ≠ 500).
Proof.
  repeat split; apply post_orchestrate_invalid;
    first [ left; reflexivity | right; eexists; split; reflexivity ].
Defined.

(** The request at which the code departs from C8. *)
Lemma orchestrate_print_not_caught_surrogate :
  orchestrate surrogate_request =
    ([], Raise (UnicodeEncodeError ("Prompt recibido: " +:+ lone_surrogate)))
  ∧ result (orchestrate surrogate_request)
    ≠ Raise (HTTPException 500 "Error interno en el orquestador.")
  ∧ respond (result (orchestrate surrogate_request)) =
    {| status := 500; payload := ServerErrorText |}.
Proof. exact (@orchestrate_print_not_caught ascii_case surrogate_request eq_refl). Defined.

(** C10, as the claim words it, fails: on the request whose prompt is a
    lone surrogate the handler raises, and the caller gets a 500. *)
Lemma orchestrate_raises_lone_surrogate :
  result (orchestrate surrogate_request) =
    Raise (UnicodeEncodeError ("Prompt recibido: " +:+ lone_surrogate))
  ∧ status (respond (result (orchestrate surrogate_request))) = 500.
Proof. split; reflexivity. Qed.

(** A request the second half of C10 applies to. *)
Lemma orchestrate_never_raises_hello :
  orchestrate hello_body =
    ([Print "Prompt recibido: hello"],
     Return {| reply := "El orquestador ha procesado tu prompt: 'HELLO'";
               source := "app_agent (Simulado)" |})
  ∧ respond (result (orchestrate hello_body)) =
    {| status := 200;
       payload := ReplyJson
         {| reply := "El orquestador ha procesado tu prompt: 'HELLO'";
            source := "app_agent (Simulado)" |} |}.
Proof.
  destruct (@orchestrate_never_raises ascii_case hello_body) as (_ & _ & _ & Hok).
  destruct (Hok eq_refl) as [E R]. split; [exact E | exact (R eq_refl)].
Defined.

End OrchestrateSamples.

(* ===================================================================== *)
(** ** More on the startup validation *)
(* ===================================================================== *)

Section StartupMore.
Import AppAgent Spec.
Context `{StrCase}.

Implicit Type env : gmap string string.

Lemma has_value_truthy env (v : string) :
  has_value env v ↔ py_bool (env !! v) = true.
Proof. unfold has_value. symmetry. apply py_bool_text. Qed.

Lemma has_value_not_empty env (v : string) :
  has_value env v ↔ ¬ unset_or_empty env v.
Proof.
  rewrite has_value_truthy. unfold unset_or_empty.
  rewrite <- py_bool_text_false. destruct (py_bool (env !! v)); split; congruence.
Qed.

Lemma missing_vars_nil env :
  missing_vars env = [] ↔
  has_value env "MODEL"
  ∧ (use_vertexai env = false
     ∨ has_value env "GOOGLE_CLOUD_PROJECT" ∧ has_value env "GOOGLE_CLOUD_LOCATION").
Proof.
  rewrite !has_value_truthy. unfold missing_vars, model_name, getenv.
  destruct (py_bool (env !! "MODEL")), (use_vertexai env),
    (py_bool (env !! "GOOGLE_CLOUD_PROJECT")),
    (py_bool (env !! "GOOGLE_CLOUD_LOCATION")); cbn;
    split; try discriminate; try tauto;
    intros [? [? | [? ?]]]; discriminate.
Qed.

(** X1: the startup check passes exactly when MODEL has a value and either
    the hosted-backend toggle is off or both GOOGLE_CLOUD_PROJECT and
    GOOGLE_CLOUD_LOCATION have one. *)
Theorem validate_environment_passes env :
  validate_environment env = Return tt ↔
  has_value env "MODEL"
  ∧ (use_vertexai env = false
     ∨ has_value env "GOOGLE_CLOUD_PROJECT" ∧ has_value env "GOOGLE_CLOUD_LOCATION").
Proof.
  rewrite <- missing_vars_nil, validate_environment_cases.
  destruct (missing_vars env); split; congruence.
Qed.

(** X2: when the toggle variable is set to a value that does not enable
    it, the cloud project and location are never reported, whatever they
    hold, and the check passes as soon as MODEL has a value. *)
Theorem validate_environment_toggle_off env (value : string) :
  env !! "GOOGLE_GENAI_USE_VERTEXAI" = Some value →
  str_lower value ∉ ["true"; "1"; "yes"] →
  ("GOOGLE_CLOUD_PROJECT" ∉ missing_vars env)
  ∧ ("GOOGLE_CLOUD_LOCATION" ∉ missing_vars env)
  ∧ (validate_environment env = Return tt ↔ has_value env "MODEL").
Proof.
  intros E Hoff.
  assert (use_vertexai env = false) as U.
  { rewrite (use_vertexai_set env value E). apply bool_decide_eq_false, Hoff. }
  rewrite validate_environment_cases, has_value_truthy.
  unfold missing_vars, model_name, getenv. rewrite U.
  destruct (py_bool (env !! "MODEL")); cbn [negb app];
    (split; [|split]; [compute_done | compute_done | split; congruence]).
Qed.

Lemma use_vertexai_insert env (v x : string) :
  v ≠ "GOOGLE_GENAI_USE_VERTEXAI" →
  use_vertexai (<[v := x]> env) = use_vertexai env.
Proof.
  intros Hv. unfold use_vertexai, google_genai_use_vertexai, getenv_default.
  rewrite lookup_insert_ne by exact Hv. reflexivity.
Qed.

(** X3: giving one of MODEL, GOOGLE_CLOUD_PROJECT, GOOGLE_CLOUD_LOCATION a
    value that is not empty takes exactly that name off the list of
    missing variables: what is reported about the others does not
    change. *)
Theorem missing_vars_after_fix env (v x : string) :
  v ∈ ["MODEL"; "GOOGLE_CLOUD_PROJECT"; "GOOGLE_CLOUD_LOCATION"] →
  x ≠ "" →
  missing_vars (<[v := x]> env) = filter (λ w, w ≠ v) (missing_vars env).
Proof.
  intros Hv Hx.
  assert (py_bool (Some x) = true) as T by (apply py_bool_text; eauto).
  assert (v = "MODEL" ∨ v = "GOOGLE_CLOUD_PROJECT" ∨ v = "GOOGLE_CLOUD_LOCATION")
    as [-> | [-> | ->]]
    by (rewrite !elem_of_cons, elem_of_nil in Hv; tauto);
    unfold missing_vars, model_name, getenv;
    rewrite use_vertexai_insert by discriminate;
    rewrite lookup_insert_eq, !lookup_insert_ne by discriminate;
    rewrite T;
    destruct (py_bool (env !! "MODEL")), (use_vertexai env),
      (py_bool (env !! "GOOGLE_CLOUD_PROJECT")),
      (py_bool (env !! "GOOGLE_CLOUD_LOCATION")); reflexivity.
Qed.

(** X4: the check reads four variables only.  Two environments that agree
    on MODEL, GOOGLE_GENAI_USE_VERTEXAI, GOOGLE_CLOUD_PROJECT and
    GOOGLE_CLOUD_LOCATION get the same verdict, with the same message. *)
Theorem validate_environment_frame env env' :
  Forall (λ v, env !! v = env' !! v) startup_vars →
  missing_vars env = missing_vars env'
  ∧ validate_environment env = validate_environment env'.
Proof.
  intros Hagree.
  apply Forall_cons in Hagree as [Em Hagree].
  apply Forall_cons in Hagree as [Et Hagree].
  apply Forall_cons in Hagree as [Ep Hagree].
  apply Forall_cons in Hagree as [El _].
  assert (missing_vars env = missing_vars env') as E.
  { unfold missing_vars, use_vertexai, google_genai_use_vertexai,
      getenv_default, model_name, getenv.
    rewrite Em, Et, Ep, El. reflexivity. }
  split; [exact E|]. unfold validate_environment. rewrite E. reflexivity.
Qed.

End StartupMore.

Section StartupMoreSamples.
Import AppAgent Spec Samples.
#[local] Existing Instance ascii_case.

(** X2 at work: the toggle is "false" and the project is empty. *)
Lemma validate_environment_toggle_off_sample :
  ("GOOGLE_CLOUD_PROJECT" ∉ missing_vars env_api_key)
  ∧ ("GOOGLE_CLOUD_LOCATION" ∉ missing_vars env_api_key)
  ∧ (validate_environment env_api_key = Return tt ↔ has_value env_api_key "MODEL").
Proof.
  apply (validate_environment_toggle_off env_api_key "false");
    [reflexivity | compute_done].
Defined.

(** X3 at work: MODEL is given a value in an empty environment. *)
Lemma missing_vars_after_fix_sample :
  missing_vars (<["MODEL" := "gemini-2.0-flash"]> ∅)
  = filter (λ w, w ≠ "MODEL") (missing_vars ∅).
Proof.
  apply (missing_vars_after_fix ∅ "MODEL" "gemini-2.0-flash");
    [compute_done | discriminate].
Defined.

(** X4 at work: an unrelated variable is added. *)
Lemma validate_environment_frame_sample :
  missing_vars (<["HOME" := "/root"]> env_vertexai) = missing_vars env_vertexai
  ∧ validate_environment (<["HOME" := "/root"]> env_vertexai)
    = validate_environment env_vertexai.
Proof.
  apply (validate_environment_frame (<["HOME" := "/root"]> env_vertexai) env_vertexai).
  compute_done.
Defined.

End StartupMoreSamples.

(* ===================================================================== *)
(** ** More on the logging hooks *)
(* ===================================================================== *)

Section HooksMore.
Import CallbackLogging Spec.
Context {V : Type} `{PyObject V}.

Implicit Type p : Part V.

(** X5: [log_query_to_model] looks at the role and the first part of the
    last message, and at nothing else: the messages before it and the
    parts after the first one make no difference. *)
Theorem log_query_to_model_last_only ctx (earlier : list (Content V))
    (r : option string) p (rest : list (Part V)) :
  log_query_to_model ctx
    {| contents := earlier ++ [{| role := r; parts := p :: rest |}] |}
  = log_query_to_model ctx
      {| contents := [{| role := r; parts := [p] |}] |}.
Proof.
  unfold log_query_to_model. cbn [contents]. rewrite last_snoc. reflexivity.
Qed.

Lemma response_line_mentions (agent t : string) :
  str_contains agent (response_line agent t) = true.
Proof. apply str_contains_infix. Qed.

Lemma call_line_mentions (agent name args : string) :
  str_contains agent (call_line agent name args) = true.
Proof. apply str_contains_infix. Qed.

Lemma part_lines_mention (agent : string) p :
  Forall (λ m, str_contains agent m = true) (part_lines agent p)
  ∧ length (part_lines agent p) ≤ 1.
Proof.
  unfold part_lines. destruct (py_bool (text p)).
  - split; [|cbn; lia]. repeat constructor. apply response_line_mentions.
  - destruct (function_call p); (split; [|cbn; lia]); repeat constructor.
    apply call_line_mentions.
Qed.

Lemma lines_mention (agent : string) (ps : list (Part V)) :
  Forall (λ m, str_contains agent m = true) (concat (map (part_lines agent) ps))
  ∧ length (concat (map (part_lines agent) ps)) ≤ length ps.
Proof.
  induction ps as [|p ps [IHm IHl]]; [split; [constructor | reflexivity]|].
  destruct (part_lines_mention agent p) as [Hm Hl].
  cbn [map concat]. split.
  - apply Forall_app. split; assumption.
  - rewrite length_app. cbn [length]. lia.
Qed.

(** X6: the two hooks never raise and never print; all they do is write
    log lines, each of which carries the agent name.  The first hook
    writes at most one line, the second at most one line per part of the
    response. *)
Theorem hooks_only_log ctx (req : LlmRequest V) (resp : LlmResponse V) :
  result (log_query_to_model ctx req) = Return tt
  ∧ Forall (log_mentions (agent_name ctx)) (trace (log_query_to_model ctx req))
  ∧ length (trace (log_query_to_model ctx req)) ≤ 1
  ∧ result (log_model_response ctx resp) = Return tt
  ∧ Forall (log_mentions (agent_name ctx)) (trace (log_model_response ctx resp))
  ∧ length (trace (log_model_response ctx resp)) ≤ length (response_parts resp).
Proof.
  rewrite log_query_to_model_cases, log_model_response_lines.
  destruct (lines_mention (agent_name ctx) (response_parts resp)) as [Hm Hl].
  assert (∀ o : option (Content V),
            let out :=
              match o with
              | Some c =>
                  if bool_decide (role c = Some "user" ∧ first_part_text c ≠ "")
                  then ([LogInfo (query_line (agent_name ctx) (first_part_text c))],
                        Return tt)
                  else ([], Return tt)
              | None => ([], Return tt)
              end in
            result out = Return tt
            ∧ Forall (log_mentions (agent_name ctx)) (trace (V:=V) out)
            ∧ length (trace out) ≤ 1) as Hq.
  { intros [c|]; cbn zeta; [case_bool_decide|]; cbn;
      (split; [reflexivity|]); (split; [|lia]); repeat constructor.
    eexists. split; [reflexivity | apply query_line_contains]. }
  destruct (Hq (last (contents req))) as (Q1 & Q2 & Q3).
  split; [exact Q1|]. split; [exact Q2|]. split; [exact Q3|].
  cbn [result trace fst snd]. split; [reflexivity|]. split.
  - apply Forall_fmap. eapply Forall_impl; [exact Hm|].
    intros m Hmm. exists m. split; [reflexivity | exact Hmm].
  - rewrite length_fmap. exact Hl.
Qed.

(** X7: logging a response is logging its parts one after the other: for
    a response whose parts are [a ++ b], the lines written are those for
    [a] followed by those for [b], whatever the role. *)
Theorem log_model_response_app ctx (r r1 r2 : option string)
    (a b : list (Part V)) :
  trace (log_model_response ctx
           {| content := Some {| role := r; parts := a ++ b |} |})
  = trace (log_model_response ctx
             {| content := Some {| role := r1; parts := a |} |})
    ++ trace (log_model_response ctx
                {| content := Some {| role := r2; parts := b |} |}).
Proof.
  rewrite !log_model_response_lines. cbn [trace fst response_parts content parts].
  rewrite map_app, concat_app, fmap_app. reflexivity.
Qed.

(** X8: the text of a part takes precedence over its function call.  A
    part with a text that is not empty and a call is logged once, as a
    response, and the call is not logged; a part with the empty text and
    a call is logged as the call. *)
Theorem log_model_response_text_first ctx (r : option string) p
    (t : string) (fc : FunctionCall V) :
  text p = Some t → function_call p = Some fc →
  log_model_response ctx {| content := Some {| role := r; parts := [p] |} |}
  = ([LogInfo (if decide (t = "")
               then call_line (agent_name ctx)
                      (py_str (fc_name fc)) (py_str (fc_args fc))
               else response_line (agent_name ctx) t)],
     Return tt).
Proof.
  intros Et Ec. rewrite log_model_response_lines.
  cbn [response_parts content parts map concat]. unfold part_lines.
  rewrite Et, Ec. cbn [py_bool optional_object str_object py_str].
  destruct (decide (t = "")) as [-> | Hne]; [reflexivity|].
  destruct t; [contradiction | reflexivity].
Qed.

End HooksMore.

Section HooksMoreSamples.
Import CallbackLogging Spec Samples.

(** X8 at work: "Checking." comes with a call of [llm_auditor]. *)
Lemma log_model_response_text_first_sample :
  log_model_response sample_context
    {| content := Some {| role := Some "model"; parts := [text_and_call] |} |}
  = ([LogInfo "[response from fact_checking_assistant]: Checking."], Return tt).
Proof.
  apply (log_model_response_text_first sample_context (Some "model")
           text_and_call "Checking." search_call); reflexivity.
Defined.

End HooksMoreSamples.

(* ===================================================================== *)
(** ** More on programs *)
(* ===================================================================== *)

Section ProgMore.
Context {V : Type}.

Lemma trace_bind {A B} (m : Prog V A) (k : A → Prog V B) :
  trace (bind m k) =
  trace m ++ match result m with
             | Return a => trace (k a)
             | Raise _ => []
             end.
Proof.
  destruct m as [t [a|e]]; cbn.
  - destruct (k a). reflexivity.
  - rewrite app_nil_r. reflexivity.
Qed.

Lemma result_bind {A B} (m : Prog V A) (k : A → Prog V B) :
  result (bind m k) =
  match result m with
  | Return a => result (k a)
  | Raise e => Raise e
  end.
Proof.
  destruct m as [t [a|e]]; cbn; [destruct (k a)|]; reflexivity.
Qed.

Lemma prog_eta {A} (m : Prog V A) : m = (trace m, result m).
Proof. destruct m. reflexivity. Qed.

(** What holds of every effect of every iteration holds of the loop. *)
Lemma for_each_Forall {A} (P : Effect V → Prop) (l : list A)
    (body : A → Prog V unit) :
  (∀ x, Forall P (trace (body x))) → Forall P (trace (for_each l body)).
Proof.
  intros Hbody. induction l as [|x l IH]; [constructor|].
  cbn [for_each]. rewrite trace_bind. apply Forall_app. split; [apply Hbody|].
  destruct (result (body x)); [exact IH | constructor].
Qed.

(** A loop whose iterations all return returns. *)
Lemma for_each_returns {A} (l : list A) (body : A → Prog V unit) :
  Forall (λ x, result (body x) = Return tt) l →
  result (for_each l body) = Return tt.
Proof.
  induction 1 as [|x l Hx _ IH]; [reflexivity|].
  cbn [for_each]. rewrite result_bind, Hx. exact IH.
Qed.

(** A loop stops at the first iteration that raises: the iterations
    before it leave their traces, those after it leave nothing. *)
Lemma for_each_raises {A} (pre post : list A) (x : A)
    (body : A → Prog V unit) (e : PyExc) :
  Forall (λ y, result (body y) = Return tt) pre →
  result (body x) = Raise e →
  for_each (pre ++ x :: post) body =
  (trace (for_each pre body) ++ trace (body x), Raise e).
Proof.
  intros Hpre Hx. rewrite (prog_eta (for_each _ _)). f_equal.
  - induction Hpre as [|y pre Hy _ IH].
    + cbn [app for_each]. rewrite trace_bind, Hx, app_nil_r. reflexivity.
    + cbn [app for_each]. rewrite !trace_bind, Hy, IH, app_assoc. reflexivity.
  - induction Hpre as [|y pre Hy _ IH].
    + cbn [app for_each]. rewrite result_bind, Hx. reflexivity.
    + cbn [app for_each]. rewrite result_bind, Hy. exact IH.
Qed.

End ProgMore.

(* ===================================================================== *)
(** ** More on [run_prompt] and [main] *)
(* ===================================================================== *)

Section RunMore.
Import AppAgent Spec.
Context {V : Type} `{PyObject V}.

Implicit Type event : Event V.
Implicit Type runner : InMemoryRunner V.

Lemma marker_starts (s : string) : str_startswith ("** " +:+ s) "** " = true.
Proof. apply startswith_append. Qed.

Lemma print_part_marked event (part : Part V) :
  Forall marked_print (trace (print_part event part)).
Proof.
  unfold print_part. destruct (py_bool (text part)); [|constructor].
  repeat constructor. eexists. split; [reflexivity | apply marker_starts].
Qed.

Lemma print_part_returns event (part : Part V) :
  has_text part → result (print_part event part) = Return tt.
Proof.
  intros Ht%has_text_truthy. unfold print_part. rewrite Ht. reflexivity.
Qed.

(** A part without text: the read of [part.tool_code] raises. *)
Lemma print_part_raises event (part : Part V) :
  ¬ has_text part →
  print_part event part =
  ([], Raise (AttributeError "'Part' object has no attribute 'tool_code'")).
Proof.
  intros Hno. unfold print_part.
  destruct (py_bool (text part)) eqn:E; [|reflexivity].
  exfalso. apply Hno, has_text_truthy, E.
Qed.

Lemma print_event_marked event :
  Forall marked_print (trace (print_event event)).
Proof.
  unfold print_event. destruct (content event) as [c|]; [|constructor].
  destruct (negb (list_bool (parts c))); [constructor|].
  apply for_each_Forall. intros part. apply print_part_marked.
Qed.

Lemma print_event_returns event :
  printable event → result (print_event event) = Return tt.
Proof.
  intros (c & E & Hparts). unfold print_event. rewrite E.
  destruct (negb (list_bool (parts c))); [reflexivity|].
  apply for_each_returns. eapply Forall_impl; [exact Hparts|].
  intros part. apply print_part_returns.
Qed.

Lemma print_event_silent event : silent event = true → print_event event = ret tt.
Proof.
  unfold silent, print_event. destruct (content event) as [c|]; [|discriminate].
  intros ->. reflexivity.
Qed.

Lemma run_prompt_unfold runner session (user_id q : string) :
  run_prompt runner session user_id q =
  ([Print ("** user: " +:+ q); RunAsync user_id (id session) (user_content q)]
   ++ trace (for_each (run_async runner user_id (id session) (user_content q))
               print_event),
   result (for_each (run_async runner user_id (id session) (user_content q))
             print_event)).
Proof.
  unfold run_prompt, print, user_content. rewrite (prog_eta (bind _ _)).
  rewrite !trace_bind, !result_bind. reflexivity.
Qed.

Lemma run_prompt_loop_marked runner session (user_id q : string) :
  Forall marked_print
    (trace (for_each (run_async runner user_id (id session) (user_content q))
              print_event)).
Proof. apply for_each_Forall, print_event_marked. Qed.

(** X9: [run_prompt] prints the query first, hands it to the runner once,
    as one user message, and after that only prints lines that start with
    "** ": it never logs and never closes the logging client. *)
Theorem run_prompt_effects runner session (user_id q : string) :
  ∃ rest,
    trace (run_prompt runner session user_id q) =
    Print ("** user: " +:+ q)
    :: RunAsync user_id (id session) (user_content q) :: rest
    ∧ Forall marked_print rest.
Proof.
  rewrite run_prompt_unfold. eexists. split; [reflexivity|].
  apply run_prompt_loop_marked.
Qed.

(** The query [main] settles on. *)
Lemma main_unfold runner (argv : list string) :
  let session := create_session runner "my_agent_app" "user1" in
  let q := if (1 <? length argv)%nat
           then str_join " " (drop 1 argv) else default_query in
  main runner argv =
  ((if (1 <? length argv)%nat then [] else [Print usage])
   ++ trace (run_prompt runner session "user1" q)
   ++ match result (run_prompt runner session "user1" q) with
      | Return _ => [CloseLogging]
      | Raise _ => []
      end,
   result (run_prompt runner session "user1" q)).
Proof.
  intros session q. subst session q. unfold main.
  rewrite (prog_eta (bind _ _)). rewrite trace_bind, result_bind.
  destruct (1 <? length argv)%nat.
  - cbn [ret trace result fst snd app]. rewrite trace_bind, result_bind.
    destruct (result (run_prompt _ _ _ _)) as [[]|e]; reflexivity.
  - unfold print. cbn [bind emit ret trace result fst snd app].
    rewrite trace_bind, result_bind.
    destruct (result (run_prompt _ _ _ _)) as [[]|e]; reflexivity.
Qed.

Lemma marked_not_usage (e : Effect V) : marked_print e → e ≠ Print usage.
Proof. intros (line & -> & Hm) [= ->]. discriminate. Qed.

Lemma marked_not_close (e : Effect V) : marked_print e → e ≠ CloseLogging.
Proof. intros (line & -> & _). discriminate. Qed.

Lemma run_prompt_never (e : Effect V) runner session (user_id q : string) :
  e = Print usage ∨ e = CloseLogging →
  e ∉ trace (run_prompt runner session user_id q).
Proof.
  intros He. rewrite run_prompt_unfold. cbn [trace fst app].
  pose proof (run_prompt_loop_marked runner session user_id q) as Hrest.
  rewrite !not_elem_of_cons. split; [|split].
  - destruct He as [-> | ->]; discriminate.
  - destruct He as [-> | ->]; discriminate.
  - intros Hin. eapply Forall_forall in Hrest; [|exact Hin].
    destruct He as [-> | ->];
      [eapply marked_not_usage | eapply marked_not_close]; eauto.
Qed.

(** X10: when there are arguments, the usage line is never printed,
    whatever the model and the tools answer. *)
Theorem main_no_usage runner (prog arg : string) (args : list string) :
  Print usage ∉ trace (main runner (prog :: arg :: args)).
Proof.
  rewrite main_unfold. cbn [length Nat.ltb Nat.leb trace fst app].
  rewrite not_elem_of_app. split.
  - apply run_prompt_never. left. reflexivity.
  - destruct (result _); [|apply not_elem_of_nil].
    rewrite not_elem_of_cons. split; [discriminate | apply not_elem_of_nil].
Qed.

(** X11: if every event of the stream has a content whose parts all have
    a text that is not empty, [main] returns, and closing the logging
    client is the last thing it does, once. *)
Theorem main_closes_logging runner (argv : list string) :
  (∀ u s c, Forall printable (run_async runner u s c)) →
  ∃ t, main runner argv = (t ++ [CloseLogging], Return tt)
       ∧ CloseLogging ∉ t.
Proof.
  intros Hall. rewrite main_unfold. cbn zeta.
  set (session := create_session runner "my_agent_app" "user1").
  set (q := if (1 <? length argv)%nat
            then str_join " " (drop 1 argv) else default_query).
  assert (result (run_prompt runner session "user1" q) = Return tt) as R.
  { rewrite run_prompt_unfold. cbn [result snd].
    apply for_each_returns. eapply Forall_impl; [apply Hall|].
    intros event. apply print_event_returns. }
  rewrite R. eexists. split; [rewrite app_assoc; reflexivity|].
  rewrite not_elem_of_app. split.
  - destruct (1 <? length argv)%nat; [apply not_elem_of_nil|].
    rewrite not_elem_of_cons. split; [discriminate | apply not_elem_of_nil].
  - apply run_prompt_never. right. reflexivity.
Qed.

(** X12: an event without content stops the run.  When the events before
    it were printed in full, [run_prompt] raises [AttributeError] for the
    missing content on reaching it, the events after it are not printed,
    and [main] ends without closing the logging client. *)
Theorem main_event_without_content runner (argv : list string)
    (pre post : list (Event V)) event :
  (∀ u s c, run_async runner u s c = pre ++ event :: post) →
  Forall printable pre →
  content event = None →
  (∀ session user_id q,
     run_prompt runner session user_id q =
     ([Print ("** user: " +:+ q); RunAsync user_id (id session) (user_content q)]
      ++ trace (for_each pre print_event),
      Raise (AttributeError "'NoneType' object has no attribute 'parts'")))
  ∧ result (main runner argv) =
    Raise (AttributeError "'NoneType' object has no attribute 'parts'")
  ∧ CloseLogging ∉ trace (main runner argv).
Proof.
  intros Hstream Hpre Hnone.
  assert (∀ session user_id q,
     run_prompt runner session user_id q =
     ([Print ("** user: " +:+ q); RunAsync user_id (id session) (user_content q)]
      ++ trace (for_each pre print_event),
      Raise (AttributeError "'NoneType' object has no attribute 'parts'"))) as R.
  { intros session user_id q. rewrite run_prompt_unfold, Hstream.
    rewrite (for_each_raises pre post event print_event
               (AttributeError "'NoneType' object has no attribute 'parts'")).
    - cbn [trace result fst snd]. unfold print_event at 2. rewrite Hnone.
      cbn [raise trace fst]. rewrite app_nil_r. reflexivity.
    - eapply Forall_impl; [exact Hpre|]. intros ev. apply print_event_returns.
    - unfold print_event. rewrite Hnone. reflexivity. }
  split; [exact R|]. rewrite main_unfold. cbn zeta. cbn [result trace fst snd].
  split; [rewrite R; reflexivity|].
  rewrite !not_elem_of_app. split; [|split].
  - destruct (1 <? length argv)%nat; [apply not_elem_of_nil|].
    rewrite not_elem_of_cons. split; [discriminate | apply not_elem_of_nil].
  - apply run_prompt_never. right. reflexivity.
  - rewrite R. apply not_elem_of_nil.
Qed.

(** X18: a part without text stops the run.  When the events before it,
    and the parts before it in its own event, were printed in full,
    [run_prompt] raises [AttributeError] for the attribute [tool_code] on
    reaching it, nothing after it is printed, and [main] ends without
    closing the logging client. *)
Theorem main_part_without_text runner (argv : list string)
    (pre post : list (Event V)) event (c : Content V)
    (before after : list (Part V)) (part : Part V) :
  (∀ u s m, run_async runner u s m = pre ++ event :: post) →
  Forall printable pre →
  content event = Some c →
  parts c = before ++ part :: after →
  Forall has_text before →
  ¬ has_text part →
  (∀ session user_id q,
     run_prompt runner session user_id q =
     ([Print ("** user: " +:+ q); RunAsync user_id (id session) (user_content q)]
      ++ trace (for_each pre print_event)
      ++ trace (for_each before (print_part event)),
      Raise (AttributeError "'Part' object has no attribute 'tool_code'")))
  ∧ result (main runner argv) =
    Raise (AttributeError "'Part' object has no attribute 'tool_code'")
  ∧ CloseLogging ∉ trace (main runner argv).
Proof.
  intros Hstream Hpre Hc Hparts Hbefore Hpart.
  assert (print_event event =
          (trace (for_each before (print_part event)),
           Raise (AttributeError "'Part' object has no attribute 'tool_code'")))
    as Hev.
  { unfold print_event. rewrite Hc, Hparts.
    replace (negb (list_bool (before ++ part :: after))) with false
      by (destruct before; reflexivity).
    rewrite (for_each_raises before after part (print_part event)
               (AttributeError "'Part' object has no attribute 'tool_code'")).
    - rewrite (print_part_raises event part Hpart). cbn [trace fst].
      rewrite app_nil_r. reflexivity.
    - eapply Forall_impl; [exact Hbefore|]. intros p. apply print_part_returns.
    - rewrite (print_part_raises event part Hpart). reflexivity. }
  assert (∀ session user_id q,
     run_prompt runner session user_id q =
     ([Print ("** user: " +:+ q); RunAsync user_id (id session) (user_content q)]
      ++ trace (for_each pre print_event)
      ++ trace (for_each before (print_part event)),
      Raise (AttributeError "'Part' object has no attribute 'tool_code'"))) as R.
  { intros session user_id q. rewrite run_prompt_unfold, Hstream.
    rewrite (for_each_raises pre post event print_event
               (AttributeError "'Part' object has no attribute 'tool_code'")).
    - rewrite Hev. reflexivity.
    - eapply Forall_impl; [exact Hpre|]. intros ev. apply print_event_returns.
    - rewrite Hev. reflexivity. }
  split; [exact R|]. rewrite main_unfold. cbn zeta. cbn [result trace fst snd].
  split; [rewrite R; reflexivity|].
  rewrite !not_elem_of_app. split; [|split].
  - destruct (1 <? length argv)%nat; [apply not_elem_of_nil|].
    rewrite not_elem_of_cons. split; [discriminate | apply not_elem_of_nil].
  - apply run_prompt_never. right. reflexivity.
  - rewrite R. apply not_elem_of_nil.
Qed.

Lemma for_each_skip_silent (events : list (Event V)) :
  for_each (filter (λ ev, silent ev = false) events) print_event
  = for_each events print_event.
Proof.
  induction events as [|ev events IH]; [reflexivity|].
  rewrite filter_cons. destruct (decide (silent ev = false)) as [Hs|Hs].
  - cbn [for_each]. rewrite IH. reflexivity.
  - cbn [for_each]. rewrite print_event_silent by (destruct (silent ev); congruence).
    rewrite IH. unfold bind, ret. destruct (for_each events print_event).
    reflexivity.
Qed.

(** X13: events that have a content without parts are passed over.  A
    runner that yields the same stream without them makes [run_prompt] do
    exactly the same. *)
Theorem run_prompt_skips_silent runner runner' session (user_id q : string) :
  (∀ u s c, run_async runner' u s c
            = filter (λ ev, silent ev = false) (run_async runner u s c)) →
  run_prompt runner' session user_id q = run_prompt runner session user_id q.
Proof.
  intros Hsame. rewrite !run_prompt_unfold, Hsame, for_each_skip_silent.
  reflexivity.
Qed.

(** X14: with arguments, [main] depends on the text of the arguments
    joined by spaces and on nothing else: neither the program name nor
    the way the question is split into arguments matters. *)
Theorem main_joined_arguments runner (prog prog' : string)
    (args args' : list string) :
  args ≠ [] → args' ≠ [] →
  str_join " " args = str_join " " args' →
  main runner (prog :: args) = main runner (prog' :: args').
Proof.
  intros Ha Ha' Hjoin. destruct args as [|a args]; [contradiction|].
  destruct args' as [|a' args']; [contradiction|].
  unfold main. cbn [length Nat.ltb Nat.leb drop]. rewrite Hjoin. reflexivity.
Qed.

End RunMore.

Section RunMoreSamples.
Import AppAgent Spec Samples.

(** X11 at work: the stream is one answer. *)
Lemma main_closes_logging_sample :
  ∃ t, main (runner_of [answer_event]) ["app_agent/agent.py"]
       = (t ++ [CloseLogging], Return tt)
       ∧ CloseLogging ∉ t.
Proof.
  apply (main_closes_logging (runner_of [answer_event]) ["app_agent/agent.py"]).
  intros u s c. constructor; [|constructor].
  eexists. split; [reflexivity|]. constructor; [|constructor].
  split; discriminate.
Defined.

(** X12 at work: an event without content between two answers. *)
Lemma main_event_without_content_sample :
  result (main (runner_of [answer_event; bare_event; answer_event])
            ["app_agent/agent.py"; "Capital?"])
  = Raise (AttributeError "'NoneType' object has no attribute 'parts'")
  ∧ trace (main (runner_of [answer_event; bare_event; answer_event])
             ["app_agent/agent.py"; "Capital?"])
    = [Print "** user: Capital?";
       RunAsync "user1" "s1" (user_content "Capital?");
       Print "** fact_checking_assistant: Paris."].
Proof.
  destruct (main_event_without_content
              (runner_of [answer_event; bare_event; answer_event])
              ["app_agent/agent.py"; "Capital?"]
              [answer_event] [answer_event] bare_event) as (_ & R & _).
  - intros u s c. reflexivity.
  - constructor; [|constructor].
    eexists. split; [reflexivity|]. constructor; [|constructor].
    split; discriminate.
  - reflexivity.
  - split; [exact R | reflexivity].
Defined.

(** X18 at work: the model calls the tool, then answers. *)
Lemma main_part_without_text_sample :
  result (main (runner_of [call_event; answer_event])
            ["app_agent/agent.py"; "Capital?"])
  = Raise (AttributeError "'Part' object has no attribute 'tool_code'")
  ∧ trace (main (runner_of [call_event; answer_event])
             ["app_agent/agent.py"; "Capital?"])
    = [Print "** user: Capital?";
       RunAsync "user1" "s1" (user_content "Capital?")].
Proof.
  destruct (main_part_without_text
              (runner_of [call_event; answer_event])
              ["app_agent/agent.py"; "Capital?"]
              [] [answer_event] call_event
              {| role := Some "model"; parts := [call_part] |}
              [] [] call_part) as (_ & R & _).
  - intros u s m. reflexivity.
  - constructor.
  - reflexivity.
  - reflexivity.
  - constructor.
  - intros [Hn _]. apply Hn. reflexivity.
  - split; [exact R | reflexivity].
Defined.

(** X13 at work: an event without parts before the answer. *)
Lemma run_prompt_skips_silent_sample :
  run_prompt (runner_of [answer_event]) {| id := "s1" |} "user1" "Capital?"
  = run_prompt (runner_of [empty_event; answer_event]) {| id := "s1" |}
      "user1" "Capital?".
Proof.
  apply (run_prompt_skips_silent (runner_of [empty_event; answer_event])
           (runner_of [answer_event])).
  intros u s c. reflexivity.
Defined.

(** X14 at work: the question quoted as one argument, or not. *)
Lemma main_joined_arguments_sample :
  main (runner_of [answer_event]) ["agent.py"; "Is water wet?"]
  = main (runner_of [answer_event]) ["python3"; "Is"; "water"; "wet?"].
Proof.
  apply (main_joined_arguments (runner_of [answer_event]) "agent.py" "python3"
           ["Is water wet?"] ["Is"; "water"; "wet?"]);
    [discriminate | discriminate | reflexivity].
Defined.

End RunMoreSamples.

(* ===================================================================== *)
(** ** More on the HTTP stub *)
(* ===================================================================== *)

Section StringCancel.

Lemma append_inj_l (a x y : string) : a +:+ x = a +:+ y → x = y.
Proof.
  induction a as [|c a IH]; [trivial|].
  rewrite !append_cons. intros [= E]. apply IH, E.
Qed.

Lemma append_char_inj (x y : string) (c : ascii) :
  x +:+ String c "" = y +:+ String c "" → x = y.
Proof.
  revert y. induction x as [|a x IH]; intros [|b y].
  - reflexivity.
  - rewrite append_nil_l, append_cons. intros [= _ E]. destruct y; discriminate.
  - rewrite append_nil_l, append_cons. intros [= _ E]. destruct x; discriminate.
  - rewrite !append_cons. intros [= -> E]. f_equal. apply IH, E.
Qed.

Lemma ascii_case_facts (c : ascii) :
  ascii_upper (ascii_upper c) = ascii_upper c
  ∧ ascii_upper (ascii_lower c) = ascii_upper c
  ∧ ((N_of_ascii c <? 128)%N = true →
     (N_of_ascii (ascii_upper c) <? 128)%N = true
     ∧ (N_of_ascii (ascii_lower c) <? 128)%N = true).
Proof.
  destruct c as [[] [] [] [] [] [] [] []]; vm_compute; repeat split; congruence.
Qed.

Lemma str_map_case_facts (s : string) :
  str_map ascii_upper (str_map ascii_upper s) = str_map ascii_upper s
  ∧ str_map ascii_upper (str_map ascii_lower s) = str_map ascii_upper s
  ∧ (str_isascii s = true →
     str_isascii (str_map ascii_upper s) = true
     ∧ str_isascii (str_map ascii_lower s) = true).
Proof.
  induction s as [|c s (IH1 & IH2 & IH3)]; [repeat split|].
  destruct (ascii_case_facts c) as (C1 & C2 & C3).
  cbn [str_map str_isascii]. rewrite IH1, IH2, C1, C2.
  split; [reflexivity|]. split; [reflexivity|].
  intros [Hc Hs]%andb_true_iff. destruct (C3 Hc) as [-> ->].
  destruct (IH3 Hs) as [-> ->]. split; reflexivity.
Qed.

End StringCancel.

Section OrchestrateMore.
Import Backend.
Context `{StrCase}.

Lemma orchestrate_result_cases (request : OrchestrateRequest)
    (a : OrchestrateResponse) :
  result (orchestrate request) = Return a →
  a = {| reply := "El orquestador ha procesado tu prompt: '"
                  +:+ str_upper (prompt request) +:+ "'";
         source := "app_agent (Simulado)" |}.
Proof.
  destruct (utf8_encodable (prompt request)) eqn:Hp.
  - rewrite (orchestrate_returns request Hp). intros [= <-]. reflexivity.
  - rewrite (orchestrate_escapes request Hp). discriminate.
Qed.

(** X16: the reply tells the uppercased prompts apart, and nothing
    more: two requests get the same reply exactly when their prompts have
    the same uppercase form. *)
Theorem orchestrate_reply_injective (r1 r2 : OrchestrateRequest)
    (a1 a2 : OrchestrateResponse) :
  result (orchestrate r1) = Return a1 →
  result (orchestrate r2) = Return a2 →
  (reply a1 = reply a2 ↔ str_upper (prompt r1) = str_upper (prompt r2)).
Proof.
  intros ->%orchestrate_result_cases ->%orchestrate_result_cases.
  cbn [reply]. split.
  - intros E. apply append_inj_l in E. apply append_char_inj in E. exact E.
  - intros ->. reflexivity.
Qed.

(** X17: the answer does not see the case of an ASCII prompt: sent in
    upper case or in lower case, the prompt gets the answer of the
    original, while the line printed shows it as it was sent. *)
Theorem orchestrate_case_insensitive (p : string) (h h1 h2 : list Message) :
  str_isascii p = true →
  result (orchestrate {| prompt := str_upper p; history := h1 |})
  = result (orchestrate {| prompt := p; history := h |})
  ∧ result (orchestrate {| prompt := str_lower p; history := h2 |})
    = result (orchestrate {| prompt := p; history := h |})
  ∧ trace (orchestrate {| prompt := str_lower p; history := h2 |})
    = [Print ("Prompt recibido: " +:+ str_lower p)].
Proof.
  intros Hp.
  destruct (str_map_case_facts p) as (U & L & A). destruct (A Hp) as [Au Al].
  rewrite (str_upper_ascii p Hp), (str_lower_ascii p Hp).
  rewrite !orchestrate_returns by (cbn [prompt]; apply utf8_ascii; assumption).
  cbn [result trace fst snd prompt].
  rewrite (str_upper_ascii p Hp).
  rewrite (str_upper_ascii _ Au), (str_upper_ascii _ Al), U, L.
  repeat split.
Qed.

End OrchestrateMore.

Section OrchestrateMoreSamples.
Import Backend Samples.
#[local] Existing Instance ascii_case.

(** X16 at work: "hello" and "Hello". *)
Lemma orchestrate_reply_injective_sample :
  reply {| reply := "El orquestador ha procesado tu prompt: 'HELLO'";
           source := "app_agent (Simulado)" |}
  = reply {| reply := "El orquestador ha procesado tu prompt: 'HELLO'";
             source := "app_agent (Simulado)" |}
  ↔ str_upper "hello" = str_upper "Hello".
Proof.
  apply (@orchestrate_reply_injective ascii_case
           {| prompt := "hello"; history := [] |}
           {| prompt := "Hello"; history := [] |}); reflexivity.
Defined.

(** X17 at work: "Hello", "HELLO" and "hello". *)
Lemma orchestrate_case_insensitive_sample :
  result (orchestrate {| prompt := "HELLO"; history := [] |})
  = result (orchestrate {| prompt := "Hello"; history := [] |})
  ∧ result (orchestrate {| prompt := "hello"; history := [] |})
    = result (orchestrate {| prompt := "Hello"; history := [] |})
  ∧ trace (orchestrate {| prompt := "hello"; history := [] |})
    = [Print "Prompt recibido: hello"].
Proof.
  exact (@orchestrate_case_insensitive ascii_case "Hello" [] [] [] eq_refl).
Defined.

End OrchestrateMoreSamples.
